(** * Book analytics dashboard (app.py): derivation, filtering and KPIs

    A shallow embedding of the data pipeline of [app.py]: [load_data] with its
    nested [get_rating], the sidebar's options and defaults, the
    boolean-mask selection [filtered_df], the KPI reductions, the two count
    tables and the Top-10 leaderboard.  The pandas operations the script
    calls are modelled in [Module Pandas]: a frame is an ordered list of
    column labels and a list of rows, each row a label-indexed [Series];
    Python exceptions are the [Raise] results of an error monad; float64
    cells are Rocq's primitive binary64 floats. *)

From Stdlib Require Import String List ZArith Bool Lia Floats.
From Stdlib Require Import Permutation Sorted.
Import ListNotations.

Set Implicit Arguments.

(** ** Exceptions and the error monad *)

Inductive exn : Type :=
| KeyError (label : string)
| TypeError
| ValueError
| OverflowError
| OSError (path : string).

Inductive result (A : Type) : Type :=
| Ok (a : A)
| Raise (e : exn).

Arguments Ok {A} a.
Arguments Raise {A} e.

Definition bind {A B : Type} (m : result A) (k : A -> result B) : result B :=
  match m with
  | Ok a => k a
  | Raise e => Raise e
  end.

Notation "x <- m ;; k" := (bind m (fun x => k))
  (at level 61, m at next level, right associativity).

Fixpoint mapM {A B : Type} (f : A -> result B) (l : list A) : result (list B) :=
  match l with
  | [] => Ok []
  | a :: l' => b <- f a ;; bs <- mapM f l' ;; Ok (b :: bs)
  end.

(** ** The pandas operations the script uses *)

Module Pandas.

(** A cell of a frame: the Python object a [Series] holds at a label. *)
Inductive value : Type :=
| VBool (b : bool)
| VInt (n : Z)
| VFloat (x : float)
| VStr (s : string).

(** int -> float64: the integer rounded to the nearest float, ties to
    even. *)
Definition float_of_Z (n : Z) : float :=
  SF2Prim (binary_normalize prec emax n 0 false).

(** Python truthiness, as [if row['rating_four']:] tests it. *)
Definition truthy (v : value) : bool :=
  match v with
  | VBool b => b
  | VInt n => negb (Z.eqb n 0)
  | VFloat x => negb (PrimFloat.eqb x PrimFloat.zero)
  | VStr s => negb (String.eqb s EmptyString)
  end.

(** The float64 a numeric cell compares as; a string cell against a float
    scalar raises [TypeError]. *)
Definition to_float (v : value) : result float :=
  match v with
  | VBool b => Ok (if b then PrimFloat.one else PrimFloat.zero)
  | VInt n => Ok (float_of_Z n)
  | VFloat x => Ok x
  | VStr _ => Raise TypeError
  end.

(** Python [==] on cells: numbers compare by value, strings by content. *)
Definition value_eqb (v w : value) : bool :=
  match v, w with
  | VStr s, VStr t => String.eqb s t
  | VStr _, _ | _, VStr _ => false
  | VFloat x, _ | _, VFloat x =>
      match to_float v, to_float w with
      | Ok a, Ok b => PrimFloat.eqb a b
      | _, _ => false
      end
  | VInt n, VInt m => Z.eqb n m
  | VInt n, VBool b | VBool b, VInt n => Z.eqb n (if b then 1 else 0)
  | VBool a, VBool b => Bool.eqb a b
  end.

(** A row as [DataFrame.apply(axis=1)] hands it over: label-indexed. *)
Definition Series : Type := list (string * value).

(** [row[label]]: the first cell under the label, [KeyError] if there is none. *)
Fixpoint getitem (row : Series) (label : string) : result value :=
  match row with
  | [] => Raise (KeyError label)
  | (l, v) :: row' => if String.eqb l label then Ok v else getitem row' label
  end.

(** [row[label] = v]: overwrite the cell if the label exists, else append. *)
Fixpoint setcell (row : Series) (label : string) (v : value) : Series :=
  match row with
  | [] => [(label, v)]
  | (l, w) :: row' =>
      if String.eqb l label then (l, v) :: row' else (l, w) :: setcell row' label v
  end.

Record DataFrame : Type := mkDataFrame {
  columns : list string;
  rows : list Series
}.

Definition has_column (df : DataFrame) (label : string) : bool :=
  existsb (String.eqb label) (columns df).

(** [len(df)] *)
Definition len (df : DataFrame) : nat := length (rows df).

(** [df.empty]: true when either axis has length 0. *)
Definition empty (df : DataFrame) : bool :=
  (Nat.eqb (length (rows df)) 0) || (Nat.eqb (length (columns df)) 0).

(** [df[label]]: the column as a list of cells, [KeyError] if it is absent. *)
Definition getcol (df : DataFrame) (label : string) : result (list value) :=
  if has_column df label
  then mapM (fun row => getitem row label) (rows df)
  else Raise (KeyError label).

(** [df.apply(f, axis=1)]: [f] on every row in order; the first exception
    aborts the whole call.  On a frame with no row pandas only probes [f]
    on a row of NaN cells under the frame's labels; the model gives the
    empty result there, as pandas does when the probe does not raise. *)
Definition apply {A : Type} (f : Series -> result A) (df : DataFrame)
  : result (list A) :=
  mapM f (rows df).

Fixpoint setcells (rs : list Series) (label : string) (vals : list value)
  : list Series :=
  match rs, vals with
  | r :: rs', v :: vals' => setcell r label v :: setcells rs' label vals'
  | _, _ => []
  end.

(** [df[label] = vals]: replaces the column or appends it as the last one;
    a length mismatch raises [ValueError]. *)
Definition setitem (df : DataFrame) (label : string) (vals : list value)
  : result DataFrame :=
  if Nat.eqb (length vals) (length (rows df))
  then Ok {| columns := if has_column df label then columns df
                        else columns df ++ [label];
             rows := setcells (rows df) label vals |}
  else Raise ValueError.

(** [col >= x] and [col <= x] against a float scalar, cell by cell.  IEEE
    comparison: both are false on a NaN cell. *)
Definition ge_scalar (col : list value) (x : float) : result (list bool) :=
  mapM (fun v => f <- to_float v ;; Ok (PrimFloat.leb x f)) col.

Definition le_scalar (col : list value) (x : float) : result (list bool) :=
  mapM (fun v => f <- to_float v ;; Ok (PrimFloat.leb f x)) col.

Definition is_nan_value (v : value) : bool :=
  match v with
  | VFloat x => PrimFloat.is_nan x
  | _ => false
  end.

(** [col.isin(values)]: membership of each cell, never an exception; a NaN
    cell is found by a NaN among the values. *)
Definition isin (col : list value) (values : list value) : list bool :=
  map (fun v => existsb (fun w => value_eqb v w
                                   || (is_nan_value v && is_nan_value w)) values)
      col.

(** [m1 & m2] on boolean masks of one frame. *)
Fixpoint mask_and (m1 m2 : list bool) : list bool :=
  match m1, m2 with
  | b1 :: m1', b2 :: m2' => (b1 && b2) :: mask_and m1' m2'
  | _, _ => []
  end.

Fixpoint select_rows (rs : list Series) (mask : list bool) : list Series :=
  match rs, mask with
  | r :: rs', b :: mask' =>
      if b then r :: select_rows rs' mask' else select_rows rs' mask'
  | _, _ => []
  end.

(** [df[mask]]: the rows whose mask bit is set, in the frame's order. *)
Definition getmask (df : DataFrame) (mask : list bool) : DataFrame :=
  {| columns := columns df; rows := select_rows (rows df) mask |}.

(** numpy's float64 sum of a contiguous array, which pandas' reductions
    call.  Fewer than 8 cells are added from left to right; up to 128 cells
    go into 8 running sums, cell [i] into sum [i mod 8], that are added as
    a balanced tree, the cells after the last full group of 8 being added
    to the result one by one; a longer array is cut near its middle, at a
    multiple of 8, and the sums of the halves are added. *)
Definition add_lanes (r xs : list float) : list float :=
  map (fun p => PrimFloat.add (fst p) (snd p)) (combine r xs).

Fixpoint lanes (groups : nat) (r xs : list float) : list float :=
  match groups with
  | O => r
  | S groups' => lanes groups' (add_lanes r (firstn 8 xs)) (skipn 8 xs)
  end.

Definition tree8 (r : list float) : float :=
  match r with
  | [r0; r1; r2; r3; r4; r5; r6; r7] =>
      PrimFloat.add
        (PrimFloat.add (PrimFloat.add r0 r1) (PrimFloat.add r2 r3))
        (PrimFloat.add (PrimFloat.add r4 r5) (PrimFloat.add r6 r7))
  | _ => PrimFloat.zero
  end.

Definition block_sum (xs : list float) : float :=
  let groups := Nat.div (length xs) 8 in
  fold_left PrimFloat.add (skipn (8 * groups) xs)
            (tree8 (lanes (groups - 1) (firstn 8 xs) (skipn 8 xs))).

(** [fuel] bounds the depth of the halving; the length of the array is more
    than enough. *)
Fixpoint pairwise_sum (fuel : nat) (xs : list float) : float :=
  let n := length xs in
  if Nat.ltb n 8 then fold_left PrimFloat.add xs PrimFloat.neg_zero
  else if Nat.leb n 128 then block_sum xs
  else
    match fuel with
    | O => block_sum xs
    | S fuel' =>
        let n2 := Nat.div n 2 - Nat.modulo (Nat.div n 2) 8 in
        PrimFloat.add (pairwise_sum fuel' (firstn n2 xs))
                      (pairwise_sum fuel' (skipn n2 xs))
    end.

(** [col.mean()] with the default [skipna=True]: NaN when no non-NaN cell
    is left; else the sum of the cells, the NaN ones counted as 0, over the
    number of non-NaN cells, in float64.  (The cells of an int column are
    summed as float64 too; as long as the sums stay below 2^53 they are
    exact in every order.) *)
Definition mean (col : list value) : result float :=
  xs <- mapM to_float col ;;
  let count := length (filter (fun x => negb (PrimFloat.is_nan x)) xs) in
  let values := map (fun x => if PrimFloat.is_nan x then PrimFloat.zero else x)
                    xs in
  if Nat.eqb count 0 then Ok PrimFloat.nan
  else Ok (PrimFloat.div (pairwise_sum (length values) values)
                         (float_of_Z (Z.of_nat count))).

(** Python's [int(x)] on a cell: truncation toward zero; NaN raises
    [ValueError] and an infinity [OverflowError]. *)
Definition int_of (v : value) : result Z :=
  match v with
  | VBool b => Ok (if b then 1%Z else 0%Z)
  | VInt n => Ok n
  | VStr _ => Raise ValueError
  | VFloat x =>
      match Prim2SF x with
      | S754_zero _ => Ok 0%Z
      | S754_nan => Raise ValueError
      | S754_infinity _ => Raise OverflowError
      | S754_finite s m e =>
          let a := Z.shiftl (Zpos m) e in Ok (if s then Z.opp a else a)
      end
  end.

(** Stable insertion of a keyed row into a list sorted by descending key:
    the new row goes before the first one whose key is not larger. *)
Fixpoint insert_desc (kr : float * Series) (l : list (float * Series))
  : list (float * Series) :=
  match l with
  | [] => [kr]
  | kr' :: l' =>
      if PrimFloat.leb (fst kr') (fst kr) then kr :: l
      else kr' :: insert_desc kr l'
  end.

Definition sort_desc (l : list (float * Series)) : list (float * Series) :=
  fold_right insert_desc [] l.

(** The dtype of a column.  A frame of the model holds cells only; the
    dtype is what [read_csv] inferred when the table was loaded, and every
    frame cut from the table by a mask keeps it, also when no row is left. *)
Inductive dtype : Type := Dbool | Dint64 | Dfloat64 | Dobject.

Definition cell_dtype (v : value) : dtype :=
  match v with
  | VBool _ => Dbool
  | VInt _ => Dint64
  | VFloat _ => Dfloat64
  | VStr _ => Dobject
  end.

Definition join_dtype (a b : dtype) : dtype :=
  match a, b with
  | Dbool, Dbool => Dbool
  | Dint64, Dint64 => Dint64
  | Dfloat64, Dfloat64 | Dint64, Dfloat64 | Dfloat64, Dint64 => Dfloat64
  | _, _ => Dobject
  end.

(** The dtype inferred for a parsed column: [object] for a column with no
    cell at all (a CSV with a header and no row) and for one with a text
    cell, else the numeric dtype of its cells. *)
Definition infer_dtype (col : list value) : dtype :=
  match col with
  | [] => Dobject
  | v :: col' => fold_left join_dtype (map cell_dtype col') (cell_dtype v)
  end.

(** [df[label].dtype] of a loaded table. *)
Definition column_dtype (df : DataFrame) (label : string) : result dtype :=
  col <- getcol df label ;;
  Ok (infer_dtype col).

(** [df.nlargest(n, label)] with the default [keep='first'], on a frame
    whose column has dtype [dt]: [KeyError] without the column, [TypeError]
    on an [object] column (whatever the number of rows), else the first [n]
    rows of the frame ordered by the column, largest first, rows with equal
    keys in the frame's order and rows with a NaN key last. *)
Definition nlargest (dt : dtype) (n : nat) (label : string) (df : DataFrame)
  : result DataFrame :=
  col <- getcol df label ;;
  match dt with
  | Dobject => Raise TypeError
  | _ =>
      keys <- mapM to_float col ;;
      let keyed := combine keys (rows df) in
      let present := filter (fun kr => negb (PrimFloat.is_nan (fst kr))) keyed in
      let missing := filter (fun kr => PrimFloat.is_nan (fst kr)) keyed in
      Ok {| columns := columns df;
            rows := firstn n (map snd (sort_desc present ++ missing)) |}
  end.

(** [df[[l1, ..., lk]]]: the frame restricted to the listed columns, in the
    listed order; [KeyError] on the first label that is no column. *)
Definition getcols (df : DataFrame) (labels : list string) : result DataFrame :=
  _ <- mapM (fun l => if has_column df l then Ok tt else Raise (KeyError l))
            labels ;;
  rs <- mapM (fun row => mapM (fun l => v <- getitem row l ;; Ok (l, v)) labels)
             (rows df) ;;
  Ok {| columns := labels; rows := rs |}.

(** The equality [unique] and [value_counts] group cells by: [==], with a
    NaN cell equal to a NaN cell. *)
Definition same_value (v w : value) : bool :=
  value_eqb v w || (is_nan_value v && is_nan_value w).

(** [col.min()] and [col.max()] of a numeric column with the default
    [skipna=True]: the least and the largest non-NaN cell, NaN when no cell
    is left.  (A text column, which pandas would compare as strings, raises
    here.) *)
Definition col_min (col : list value) : result float :=
  xs <- mapM to_float col ;;
  match filter (fun x => negb (PrimFloat.is_nan x)) xs with
  | [] => Ok PrimFloat.nan
  | y :: ys => Ok (fold_left (fun m x => if PrimFloat.leb m x then m else x) ys y)
  end.

Definition col_max (col : list value) : result float :=
  xs <- mapM to_float col ;;
  match filter (fun x => negb (PrimFloat.is_nan x)) xs with
  | [] => Ok PrimFloat.nan
  | y :: ys => Ok (fold_left (fun m x => if PrimFloat.leb x m then m else x) ys y)
  end.

(** [col.unique()]: the distinct cells in order of first appearance. *)
Fixpoint unique_from (seen : list value) (col : list value) : list value :=
  match col with
  | [] => []
  | v :: col' =>
      if existsb (same_value v) seen then unique_from seen col'
      else v :: unique_from (v :: seen) col'
  end.

Definition unique (col : list value) : list value := unique_from [] col.

Definition int_value (v : value) : Z :=
  match v with
  | VBool b => if b then 1%Z else 0%Z
  | VInt n => n
  | _ => 0%Z
  end.

(** Python [<] on cells: strings by code points, numbers by value; a
    string against a number raises [TypeError]. *)
Definition value_ltb (v w : value) : result bool :=
  match v, w with
  | VStr s, VStr t => Ok (String.ltb s t)
  | VStr _, _ | _, VStr _ => Raise TypeError
  | VFloat _, _ | _, VFloat _ =>
      a <- to_float v ;; b <- to_float w ;; Ok (PrimFloat.ltb a b)
  | _, _ => Ok (Z.ltb (int_value v) (int_value w))
  end.

(** Python's [sorted]: ascending and stable, comparing with [<] only.  On
    cells that [<] orders totally (the strings or the ints of one column)
    this is the list every stable sort returns. *)
Fixpoint insert_sorted (v : value) (l : list value) : result (list value) :=
  match l with
  | [] => Ok [v]
  | w :: l' =>
      b <- value_ltb w v ;;
      if b then r <- insert_sorted v l' ;; Ok (w :: r) else Ok (v :: l)
  end.

Fixpoint sorted (l : list value) : result (list value) :=
  match l with
  | [] => Ok []
  | v :: l' => s <- sorted l' ;; insert_sorted v s
  end.

Definition count_of (v : value) (col : list value) : nat :=
  length (filter (same_value v) col).

Fixpoint insert_count (kc : value * nat) (l : list (value * nat))
  : list (value * nat) :=
  match l with
  | [] => [kc]
  | kc' :: l' =>
      if Nat.leb (snd kc') (snd kc) then kc :: l else kc' :: insert_count kc l'
  end.

(** [col.value_counts()] with the defaults [sort=True], [dropna=True]: one
    entry per distinct non-NaN cell with the number of cells equal to it,
    largest count first, equal counts in order of first appearance. *)
Definition value_counts (col : list value) : list (value * nat) :=
  let present := filter (fun v => negb (is_nan_value v)) col in
  fold_right insert_count []
             (map (fun v => (v, count_of v present)) (unique present)).

(** [vc.reset_index()] with the two columns then renamed by position
    ([counts.columns = [key, count]]). *)
Definition counts_frame (key count : string) (vc : list (value * nat))
  : DataFrame :=
  {| columns := [key; count];
     rows := map (fun kc => [(key, fst kc); (count, VInt (Z.of_nat (snd kc)))])
                 vc |}.

End Pandas.

Import Pandas.

(** ** app.py, lines 8-20: the loader *)

(** The nested [get_rating(row)]: the indicators are looked up one after the
    other, and a lookup happens only when every earlier one was falsy. *)
Definition get_rating (row : Series) : result Z :=
  r4 <- getitem row "rating_four" ;;
  if truthy r4 then Ok 4%Z else
  r1 <- getitem row "rating_one" ;;
  if truthy r1 then Ok 1%Z else
  r3 <- getitem row "rating_three" ;;
  if truthy r3 then Ok 3%Z else
  r2 <- getitem row "rating_two" ;;
  if truthy r2 then Ok 2%Z else
  Ok 5%Z.

Definition csv_path : string := "cleaned_books_data (1).csv".

(** [load_data()].  [read_csv] stands for [pd.read_csv] in the environment
    the script runs in: the frame parsed from a path, or the exception
    raised when the file cannot be read.  The [st.cache_data] decorator
    only memoises the call and is left out. *)
Definition load_data (read_csv : string -> result DataFrame) : result DataFrame :=
  df <- read_csv csv_path ;;
  scores <- apply get_rating df ;;
  setitem df "rating_score" (map VInt scores).

(** ** app.py, lines 28-37: the sidebar's options and defaults *)

(** Line 28: [min_p, max_p], the ends of the price slider and also its
    initial value. *)
Definition price_bounds (df : DataFrame) : result (float * float) :=
  col1 <- getcol df "price" ;;
  min_p <- col_min col1 ;;
  col2 <- getcol df "price" ;;
  max_p <- col_max col2 ;;
  Ok (min_p, max_p).

(** Line 32: [categories], the options and the default of the category
    multiselect. *)
Definition categories (df : DataFrame) : result (list value) :=
  col <- getcol df "price_category" ;;
  sorted (unique col).

(** Line 36: [ratings], the options and the default of the rating
    multiselect. *)
Definition ratings (df : DataFrame) : result (list value) :=
  col <- getcol df "rating_score" ;;
  sorted (unique col).

(** ** app.py, lines 39-43: the filtered view *)

(** [filtered_df]: the four masks are computed column by column and joined
    with [&], then used to index the frame.  [price_range] is the slider's
    pair, [selected_cat] and [selected_ratings] the two multiselects. *)
Definition filtered_df (df : DataFrame) (price_range : float * float)
    (selected_cat selected_ratings : list value) : result DataFrame :=
  price1 <- getcol df "price" ;;
  m1 <- ge_scalar price1 (fst price_range) ;;
  price2 <- getcol df "price" ;;
  m2 <- le_scalar price2 (snd price_range) ;;
  cat <- getcol df "price_category" ;;
  let m3 := isin cat selected_cat in
  score <- getcol df "rating_score" ;;
  let m4 := isin score selected_ratings in
  Ok (getmask df (mask_and (mask_and (mask_and m1 m2) m3) m4)).

(** ** app.py, lines 54-63: the KPIs *)

(** Line 56: [len(filtered_df)]. *)
Definition total_inventory (filtered : DataFrame) : nat := len filtered.

(** Line 58: [filtered_df['price'].mean()], the number handed to the
    [:.2f] format. *)
Definition avg_price (filtered : DataFrame) : result float :=
  col <- getcol filtered "price" ;;
  mean col.

(** Line 62: [avg_len], guarded by [filtered_df.empty]. *)
Definition avg_len (filtered : DataFrame) : result value :=
  if negb (empty filtered)
  then col <- getcol filtered "title_length" ;; m <- mean col ;; Ok (VFloat m)
  else Ok (VInt 0).

(** Line 63: [int(avg_len)]. *)
Definition avg_len_chars (filtered : DataFrame) : result Z :=
  a <- avg_len filtered ;;
  int_of a.

(** Line 60: [filtered_df['price'].max()]. *)
Definition highest_price (filtered : DataFrame) : result float :=
  col <- getcol filtered "price" ;;
  col_max col.

(** ** app.py, lines 73-74 and 105-106: the two count tables *)

Definition cat_counts (filtered : DataFrame) : result DataFrame :=
  col <- getcol filtered "price_category" ;;
  Ok (counts_frame "Category" "Count" (value_counts col)).

Definition rating_counts (filtered : DataFrame) : result DataFrame :=
  col <- getcol filtered "rating_score" ;;
  Ok (counts_frame "Rating" "Count" (value_counts col)).

(** ** app.py, line 131: the leaderboard *)

(** [top_10].  [filtered] is [df[mask]] (lines 39-43) and has the dtypes of
    the loaded table [df], which are read off [df] here. *)
Definition top_10 (df filtered : DataFrame) : result DataFrame :=
  dt <- column_dtype df "price" ;;
  top <- nlargest dt 10 "price" filtered ;;
  getcols top ["title"%string; "price"%string].

(** The view of the first render, and of every render with the widgets
    untouched: the slider at [(min_p, max_p)], both multiselects at all of
    their options. *)
Definition default_view (df : DataFrame) : result DataFrame :=
  price_range <- price_bounds df ;;
  selected_cat <- categories df ;;
  selected_ratings <- ratings df ;;
  filtered_df df price_range selected_cat selected_ratings.


(** ** The table of section 3 of the specification, as frames

    A [BookRecord] is one row of the loaded table with the dtypes the CSV
    gives its columns; [to_series] is the row [apply] and the column
    accessors see, [frame] the frame of a list of records.  [csv_series] and
    [csv_frame] are the same before the loader adds [rating_score]. *)

Record BookRecord : Type := mkBook {
  price : float;
  price_category : string;
  title : string;
  title_length : Z;
  rating_four : bool;
  rating_three : bool;
  rating_two : bool;
  rating_one : bool;
  rating_score : Z
}.

Definition csv_columns : list string :=
  ["price"; "price_category"; "title"; "title_length";
   "rating_four"; "rating_three"; "rating_two"; "rating_one"]%string.

Definition csv_series (r : BookRecord) : Series :=
  [("price"%string, VFloat (price r));
   ("price_category"%string, VStr (price_category r));
   ("title"%string, VStr (title r));
   ("title_length"%string, VInt (title_length r));
   ("rating_four"%string, VBool (rating_four r));
   ("rating_three"%string, VBool (rating_three r));
   ("rating_two"%string, VBool (rating_two r));
   ("rating_one"%string, VBool (rating_one r))].

Definition csv_frame (T : list BookRecord) : DataFrame :=
  {| columns := csv_columns; rows := map csv_series T |}.

Definition to_series (r : BookRecord) : Series :=
  csv_series r ++ [("rating_score"%string, VInt (rating_score r))].

Definition frame (T : list BookRecord) : DataFrame :=
  {| columns := csv_columns ++ ["rating_score"%string]; rows := map to_series T |}.

(** The score the precedence 4, 1, 3, 2, default 5 gives a record. *)
Definition precedence_score (r : BookRecord) : Z :=
  if rating_four r then 4
  else if rating_one r then 1
  else if rating_three r then 3
  else if rating_two r then 2
  else 5.

Definition with_score (r : BookRecord) : BookRecord :=
  {| price := price r; price_category := price_category r; title := title r;
     title_length := title_length r;
     rating_four := rating_four r; rating_three := rating_three r;
     rating_two := rating_two r; rating_one := rating_one r;
     rating_score := precedence_score r |}.

(** The filter criteria of section 3 and the inclusion test of section 4.2. *)
Record FilterCriteria : Type := mkCriteria {
  price_min : float;
  price_max : float;
  allowed_categories : list string;
  allowed_ratings : list Z
}.

Definition included (c : FilterCriteria) (r : BookRecord) : bool :=
  PrimFloat.leb (price_min c) (price r)
  && PrimFloat.leb (price r) (price_max c)
  && existsb (String.eqb (price_category r)) (allowed_categories c)
  && existsb (Z.eqb (rating_score r)) (allowed_ratings c).

(** The script's filter run on a table with the widgets set to [c]. *)
Definition run_filter (T : list BookRecord) (c : FilterCriteria) : result DataFrame :=
  filtered_df (frame T) (price_min c, price_max c)
              (map VStr (allowed_categories c)) (map VInt (allowed_ratings c)).

(** The two columns of the leaderboard. *)
Definition board_series (r : BookRecord) : Series :=
  [("title"%string, VStr (title r)); ("price"%string, VFloat (price r))].

Definition board_frame (T : list BookRecord) : DataFrame :=
  {| columns := ["title"%string; "price"%string]; rows := map board_series T |}.

(** ** The scenario of section 8 *)

Definition book1 : BookRecord :=
  mkBook 10%float "Low" "A" 1 false false false false 0.
Definition book2 : BookRecord :=
  mkBook 50%float "Medium" "B" 1 false true false false 0.
Definition book3 : BookRecord :=
  mkBook 200%float "High" "C" 1 true false false false 0.

Definition all_criteria : FilterCriteria :=
  mkCriteria 0%float 100%float ["Low"; "Medium"; "High"]%string [1; 2; 3; 4; 5]%Z.

(** A frame with the four indicators and nothing else: no [price],
    [price_category], [title] or [title_length] column. *)
Definition indicators_only : DataFrame :=
  {| columns := ["rating_four"; "rating_three"; "rating_two"; "rating_one"]%string;
     rows := [[("rating_four"%string, VBool false); ("rating_three"%string, VBool true);
               ("rating_two"%string, VBool false); ("rating_one"%string, VBool false)]] |}.

(** A frame whose only column is [rating_four], true on its one row. *)
Definition four_only : DataFrame :=
  {| columns := ["rating_four"%string];
     rows := [[("rating_four"%string, VBool true)]] |}.

(** A frame with a row and no [rating_four] column. *)
Definition no_four : DataFrame :=
  {| columns := ["price"%string];
     rows := [[("price"%string, VFloat 10%float)]] |}.

(** The labels [get_rating] reads, and whether a row carries them. *)
Definition indicator_labels : list string :=
  ["rating_four"; "rating_one"; "rating_three"; "rating_two"]%string.

Definition has_label (row : Series) (label : string) : bool :=
  match getitem row label with
  | Ok _ => true
  | Raise _ => false
  end.

Definition has_indicators (row : Series) : bool :=
  forallb (has_label row) indicator_labels.

(** [row[label]] is there and is falsy. *)
Definition falsy_at (row : Series) (label : string) : Prop :=
  exists v, getitem row label = Ok v /\ truthy v = false.

(** The frames on which [df.apply(get_rating, axis=1)] is the row-by-row
    map of the model: the frames with a row, and the frames without rows
    that have the indicator columns, on which the probe of [get_rating]
    returns. *)
Definition applies_by_row (df : DataFrame) : bool :=
  negb (Nat.eqb (length (rows df)) 0)
  || forallb (has_column df) indicator_labels.

(** ** Order of the float64 keys

    [sf_key] places every non-NaN float on a lexicographic scale of three
    integers (class, exponent, mantissa); [SFleb] is [lex_le] on it. *)

Definition sf_key (f : spec_float) : Z * Z * Z :=
  match f with
  | S754_infinity true => (-2, 0, 0)
  | S754_finite true m e => (-1, - e, Zneg m)
  | S754_zero _ => (0, 0, 0)
  | S754_nan => (0, 0, 0)
  | S754_finite false m e => (1, e, Zpos m)
  | S754_infinity false => (2, 0, 0)
  end%Z.

Definition lex_le (a b : Z * Z * Z) : Prop :=
  let '(a1, a2, a3) := a in
  let '(b1, b2, b3) := b in
  (a1 < b1 \/ (a1 = b1 /\ (a2 < b2 \/ (a2 = b2 /\ a3 <= b3))))%Z.

(** ** The leaderboard order on records

    [nlargest] seen on a list of records: stable insertion by descending
    price of the records with a price, then the records without one. *)

Fixpoint insert_book (r : BookRecord) (l : list BookRecord) : list BookRecord :=
  match l with
  | [] => [r]
  | r' :: l' =>
      if PrimFloat.leb (price r') (price r) then r :: l
      else r' :: insert_book r l'
  end.

Definition sort_books (l : list BookRecord) : list BookRecord :=
  fold_right insert_book [] l.

Definition has_price (r : BookRecord) : bool := negb (PrimFloat.is_nan (price r)).

Definition ranked (l : list BookRecord) : list BookRecord :=
  sort_books (filter has_price l)
  ++ filter (fun r => PrimFloat.is_nan (price r)) l.

(** The leaderboard's order relation: [r1] may stand before [r2]. *)
Definition price_ge (r1 r2 : BookRecord) : Prop :=
  PrimFloat.leb (price r2) (price r1) = true.

(** [Subseq l1 l2]: [l1] is [l2] with some elements removed, order kept. *)
Inductive Subseq {A : Type} : list A -> list A -> Prop :=
| Subseq_nil : Subseq [] []
| Subseq_skip : forall x l1 l2, Subseq l1 l2 -> Subseq l1 (x :: l2)
| Subseq_keep : forall x l1 l2, Subseq l1 l2 -> Subseq (x :: l1) (x :: l2).

(** The records of the filtered view, as a list. *)
Definition view (T : list BookRecord) (c : FilterCriteria) : list BookRecord :=
  filter (included c) T.

(** The records whose price equals [p] as a number. *)
Definition priced_at (p : float) (r : BookRecord) : bool :=
  PrimFloat.leb p (price r) && PrimFloat.leb (price r) p.

(** Strictly ascending under Python's [<]. *)
Definition ascending : list value -> Prop :=
  StronglySorted (fun v w => value_ltb v w = Ok true).

(** The cells of a text column and of an int column. *)
Definition is_text (v : value) : Prop :=
  match v with VStr _ => True | _ => False end.

Definition is_int (v : value) : Prop :=
  match v with VInt _ => True | _ => False end.

(** * Properties *)

Example scenario_load :
  load_data (fun _ => Ok (csv_frame [book1; book2; book3]))
  = Ok (frame [with_score book1; with_score book2; with_score book3])
  /\ map rating_score [with_score book1; with_score book2; with_score book3]
     = [5; 3; 4]%Z.
Proof. split; reflexivity. Qed.

Example scenario_filter :
  run_filter [with_score book1; with_score book2; with_score book3] all_criteria
  = Ok (frame [with_score book1; with_score book2]).
Proof. vm_compute. reflexivity. Qed.

Example scenario_bounds_inclusive :
  run_filter [with_score book1; with_score book2; with_score book3]
             (mkCriteria 10%float 50%float ["Low"; "Medium"; "High"]%string
                         [1; 2; 3; 4; 5]%Z)
  = Ok (frame [with_score book1; with_score book2]).
Proof. vm_compute. reflexivity. Qed.

Example scenario_kpis :
  avg_price (frame [with_score book1; with_score book2]) = Ok 30%float
  /\ avg_len_chars (frame [with_score book1; with_score book2]) = Ok 1%Z
  /\ total_inventory (frame [with_score book1; with_score book2]) = 2%nat.
Proof. repeat split; vm_compute; reflexivity. Qed.

Example scenario_sidebar :
  price_bounds (frame [with_score book2; with_score book1; with_score book3])
  = Ok (10%float, 200%float)
  /\ categories (frame [with_score book2; with_score book1; with_score book3;
                        with_score book1])
     = Ok [VStr "High"; VStr "Low"; VStr "Medium"]
  /\ ratings (frame [with_score book2; with_score book1; with_score book3;
                     with_score book1])
     = Ok [VInt 3; VInt 4; VInt 5].
Proof. repeat split; vm_compute; reflexivity. Qed.

Example scenario_counts :
  cat_counts (frame [with_score book2; with_score book1; with_score book3;
                     with_score book1])
  = Ok (counts_frame "Category" "Count"
          [(VStr "Low", 2%nat); (VStr "Medium", 1%nat); (VStr "High", 1%nat)])
  /\ highest_price (frame [with_score book2; with_score book1]) = Ok 50%float
  /\ default_view (frame [with_score book2; with_score book1; with_score book3])
     = Ok (frame [with_score book2; with_score book1; with_score book3]).
Proof. repeat split; vm_compute; reflexivity. Qed.

Example scenario_mean_order :
  mean (repeat (VFloat 0x1.999999999999ap-4%float) 10) = Ok 0x1.999999999999ap-4%float
  /\ mean [VFloat 1%float; VFloat PrimFloat.nan; VInt 2] = Ok 1.5%float
  /\ float_of_Z (- 2 ^ 63) = (-9223372036854775808)%float.
Proof. repeat split; vm_compute; reflexivity. Qed.

Example scenario_top :
  top_10 (frame [with_score book1; with_score book3; with_score book2])
         (frame [with_score book1; with_score book3; with_score book2])
  = Ok (board_frame [with_score book3; with_score book2; with_score book1]).
Proof. vm_compute. reflexivity. Qed.

(** ** The float64 comparison is a total preorder away from NaN *)

Lemma SFleb_lex (a b : spec_float) :
  a <> S754_nan -> b <> S754_nan ->
  (SFleb a b = true <-> lex_le (sf_key a) (sf_key b)).
Proof.
  intros Ha Hb. unfold SFleb, SFcompare.
  destruct a as [sa | sa | | sa ma ea], b as [sb | sb | | sb mb eb];
    try congruence; try destruct sa; try destruct sb; cbn;
    try (split; [intros _; lia | reflexivity]);
    try (split; [discriminate | lia]).
  - change (Pos.compare_cont Eq ma mb) with (Pos.compare ma mb).
    destruct (Z.compare_spec ea eb), (Pos.compare_spec ma mb); cbn;
      split; intros H'; try reflexivity; try discriminate; lia.
  - change (Pos.compare_cont Eq ma mb) with (Pos.compare ma mb).
    destruct (Z.compare_spec ea eb), (Pos.compare_spec ma mb); cbn;
      split; intros H'; try reflexivity; try discriminate; lia.
Qed.

Lemma lex_le_trans (a b c : Z * Z * Z) : lex_le a b -> lex_le b c -> lex_le a c.
Proof.
  destruct a as [[a1 a2] a3], b as [[b1 b2] b3], c as [[c1 c2] c3].
  unfold lex_le. lia.
Qed.

Lemma lex_le_total (a b : Z * Z * Z) : lex_le a b \/ lex_le b a.
Proof.
  destruct a as [[a1 a2] a3], b as [[b1 b2] b3]. unfold lex_le. lia.
Qed.

Lemma is_nan_spec (x : float) :
  PrimFloat.is_nan x = true <-> Prim2SF x = S754_nan.
Proof.
  unfold PrimFloat.is_nan. rewrite FloatAxioms.eqb_spec. unfold SFeqb, SFcompare.
  destruct (Prim2SF x) as [s | s | | s m e]; try destruct s; cbn;
    try rewrite Z.compare_refl;
    try change (Pos.compare_cont Eq m m) with (Pos.compare m m);
    try rewrite Pos.compare_refl; cbn;
    split; congruence.
Qed.

Lemma not_nan_spec (x : float) :
  PrimFloat.is_nan x = false <-> Prim2SF x <> S754_nan.
Proof.
  rewrite <- is_nan_spec. destruct (PrimFloat.is_nan x); split; congruence.
Qed.

Lemma leb_not_nan (x y : float) :
  PrimFloat.leb x y = true ->
  PrimFloat.is_nan x = false /\ PrimFloat.is_nan y = false.
Proof.
  rewrite FloatAxioms.leb_spec, !not_nan_spec. unfold SFleb, SFcompare.
  destruct (Prim2SF x), (Prim2SF y); try discriminate; split; discriminate.
Qed.

Lemma leb_trans (x y z : float) :
  PrimFloat.leb x y = true -> PrimFloat.leb y z = true ->
  PrimFloat.leb x z = true.
Proof.
  intros Hxy Hyz.
  destruct (leb_not_nan Hxy) as [Hx Hy].
  destruct (leb_not_nan Hyz) as [_ Hz].
  rewrite not_nan_spec in Hx, Hy, Hz.
  rewrite FloatAxioms.leb_spec in *.
  rewrite SFleb_lex in * by assumption.
  eapply lex_le_trans; eassumption.
Qed.

Lemma leb_total (x y : float) :
  PrimFloat.is_nan x = false -> PrimFloat.is_nan y = false ->
  PrimFloat.leb x y = false -> PrimFloat.leb y x = true.
Proof.
  rewrite !not_nan_spec. intros Hx Hy Hxy.
  rewrite FloatAxioms.leb_spec in *.
  rewrite SFleb_lex by assumption.
  destruct (lex_le_total (sf_key (Prim2SF x)) (sf_key (Prim2SF y))) as [H | H];
    [ | exact H ].
  rewrite <- SFleb_lex in H by assumption. congruence.
Qed.

(** ** The loader *)

Section MapM.
Context {A B : Type} (f : A -> result B).

Lemma mapM_length (l : list A) (bs : list B) :
  mapM f l = Ok bs -> length bs = length l.
Proof.
  revert bs. induction l as [| a l IH]; cbn; intros bs H.
  - injection H as <-. reflexivity.
  - destruct (f a) as [b | e]; cbn in H; [ | discriminate ].
    destruct (mapM f l) as [bs' | e]; cbn in H; [ | discriminate ].
    injection H as <-. cbn. f_equal. apply IH. reflexivity.
Qed.

Lemma mapM_Forall2 (l : list A) (bs : list B) :
  mapM f l = Ok bs -> Forall2 (fun a b => f a = Ok b) l bs.
Proof.
  revert bs. induction l as [| a l IH]; cbn; intros bs H.
  - injection H as <-. constructor.
  - destruct (f a) as [b | e] eqn:Hfa; cbn in H; [ | discriminate ].
    destruct (mapM f l) as [bs' | e]; cbn in H; [ | discriminate ].
    injection H as <-. constructor; [ exact Hfa | apply IH; reflexivity ].
Qed.

Lemma mapM_total (l : list A) :
  Forall (fun a => exists b, f a = Ok b) l -> exists bs, mapM f l = Ok bs.
Proof.
  induction 1 as [| a l [b Hb] _ [bs Hbs]]; cbn.
  - eexists. reflexivity.
  - rewrite Hb, Hbs. cbn. eexists. reflexivity.
Qed.



Lemma mapM_map_ok {C : Type} (g : C -> A) (h : C -> B) (l : list C) :
  (forall c, f (g c) = Ok (h c)) -> mapM f (map g l) = Ok (map h l).
Proof.
  intros H. induction l as [| c l IH]; cbn; [ reflexivity | ].
  rewrite H, IH. reflexivity.
Qed.

End MapM.

Lemma getitem_setcell (row : Series) (label : string) (v : value) :
  getitem (setcell row label v) label = Ok v.
Proof.
  induction row as [| [l w] row IH]; cbn.
  - rewrite String.eqb_refl. reflexivity.
  - destruct (String.eqb l label) eqn:E; cbn; rewrite E; [ reflexivity | exact IH ].
Qed.

(** Runs [get_rating] symbolically: one case per lookup that raises or
    returns, one per truth value of the cell found. *)
Ltac run_get_rating row :=
  unfold get_rating;
  repeat match goal with
         | |- context [bind (getitem row ?l) _] =>
             destruct (getitem row l) eqn:?; cbn [bind]
         | |- context [if truthy ?v then _ else _] => destruct (truthy v)
         end.

Lemma get_rating_range (row : Series) (s : Z) :
  get_rating row = Ok s -> (1 <= s <= 5)%Z.
Proof.
  run_get_rating row; intros H; try discriminate; injection H as <-; lia.
Qed.

Lemma get_rating_raise (row : Series) (e : exn) :
  get_rating row = Raise e ->
  exists l, In l indicator_labels /\ e = KeyError l /\ has_label row l = false.
Proof.
  assert (K : forall l, getitem row l = Raise e -> e = KeyError l).
  { intros l. induction row as [| [l' w] row IH]; cbn.
    - congruence.
    - destruct (String.eqb l' l); [ discriminate | exact IH ]. }
  unfold has_label, indicator_labels.
  run_get_rating row; intros H; try discriminate; injection H as <-;
    match goal with
    | E : getitem row ?l = Raise _ |- _ =>
        exists l; rewrite E; cbn; intuition auto using K
    end.
Qed.

Lemma get_rating_total (row : Series) :
  has_indicators row = true -> exists s, get_rating row = Ok s.
Proof.
  unfold has_indicators, indicator_labels, has_label. cbn.
  rewrite !andb_true_iff. intros (H4 & H1 & H3 & H2 & _).
  destruct (getitem row "rating_four") eqn:E4; [ | discriminate ].
  destruct (getitem row "rating_one") eqn:E1; [ | discriminate ].
  destruct (getitem row "rating_three") eqn:E3; [ | discriminate ].
  destruct (getitem row "rating_two") eqn:E2; [ | discriminate ].
  unfold get_rating. rewrite E4, E1, E3, E2. cbn [bind].
  repeat match goal with
         | |- context [if truthy ?v then _ else _] => destruct (truthy v)
         end; eexists; reflexivity.
Qed.

Lemma setcells_Forall2 (rs : list Series) (label : string) (ss : list Z) :
  Forall2 (fun row s => get_rating row = Ok s) rs ss ->
  Forall2 (fun row row' => exists s, row' = setcell row label (VInt s)
                                      /\ get_rating row = Ok s)
          rs (setcells rs label (map VInt ss)).
Proof.
  induction 1 as [| row s rs ss H _ IH]; cbn; constructor.
  - exists s. split; [ reflexivity | exact H ].
  - exact IH.
Qed.

(** What a successful [load_data] returns: the frame read, every row with
    its [rating_score] cell set from [get_rating]. *)
Lemma load_data_ok (read_csv : string -> result DataFrame) (df' : DataFrame) :
  load_data read_csv = Ok df' ->
  exists df, read_csv csv_path = Ok df /\ len df' = len df /\
    Forall2 (fun row row' => exists s, row' = setcell row "rating_score" (VInt s)
                                        /\ get_rating row = Ok s)
            (rows df) (rows df').
Proof.
  unfold load_data, apply, setitem, len.
  destruct (read_csv csv_path) as [df | e]; cbn; [ | discriminate ].
  destruct (mapM get_rating (rows df)) as [ss | e] eqn:Hss; cbn; [ | discriminate ].
  rewrite length_map, (mapM_length _ _ Hss), Nat.eqb_refl.
  intros H. injection H as <-. cbn.
  pose proof (setcells_Forall2 "rating_score" (mapM_Forall2 _ _ Hss)) as HF.
  exists df. split; [ reflexivity | ]. split; [ | exact HF ].
  symmetry. eapply Forall2_length. exact HF.
Qed.

Lemma load_data_total (read_csv : string -> result DataFrame) (df : DataFrame) :
  read_csv csv_path = Ok df ->
  forallb has_indicators (rows df) = true ->
  exists df', load_data read_csv = Ok df'.
Proof.
  intros Hread Hind. unfold load_data, apply, setitem. rewrite Hread. cbn.
  destruct (@mapM_total _ _ get_rating (rows df)) as [ss Hss].
  { rewrite forallb_forall in Hind. apply Forall_forall. intros row Hin.
    apply get_rating_total, Hind, Hin. }
  rewrite Hss. cbn. rewrite length_map, (mapM_length _ _ Hss), Nat.eqb_refl.
  eexists. reflexivity.
Qed.

(** C1: for every record whose four indicator cells are booleans, the score
    [get_rating] derives follows the precedence 4, 1, 3, 2, default 5:
    4 when [rating_four] is set whatever the others hold, else 1 when
    [rating_one] is set, else 3 when [rating_three] is set, else 2 when
    [rating_two] is set, else 5. *)
Theorem C1_rating_precedence (row : Series) (b4 b1 b3 b2 : bool) :
  getitem row "rating_four" = Ok (VBool b4) ->
  getitem row "rating_one" = Ok (VBool b1) ->
  getitem row "rating_three" = Ok (VBool b3) ->
  getitem row "rating_two" = Ok (VBool b2) ->
  get_rating row
  = Ok (if b4 then 4 else if b1 then 1 else if b3 then 3 else if b2 then 2 else 5)%Z.
Proof.
  intros H4 H1 H3 H2. unfold get_rating.
  rewrite H4, H1, H3, H2. cbn.
  destruct b4, b1, b3, b2; reflexivity.
Qed.

Lemma C1_rating_precedence_witness :
  get_rating (csv_series (mkBook 50%float "Medium" "B" 1 false true false true 0))
  = Ok 1%Z.
Proof.
  exact (@C1_rating_precedence
           (csv_series (mkBook 50%float "Medium" "B" 1 false true false true 0))
           false true true false eq_refl eq_refl eq_refl eq_refl).
Defined.

(** C9: the derived score depends only on the four indicator cells: two
    rows that agree under [rating_four], [rating_one], [rating_three] and
    [rating_two] get the same result from [get_rating], whatever their
    other cells are. *)
Theorem C9_rating_noninterference (row1 row2 : Series) :
  getitem row1 "rating_four" = getitem row2 "rating_four" ->
  getitem row1 "rating_one" = getitem row2 "rating_one" ->
  getitem row1 "rating_three" = getitem row2 "rating_three" ->
  getitem row1 "rating_two" = getitem row2 "rating_two" ->
  get_rating row1 = get_rating row2.
Proof.
  intros H4 H1 H3 H2. unfold get_rating.
  rewrite H4, H1, H3, H2. reflexivity.
Qed.

Lemma C9_rating_noninterference_witness :
  get_rating (to_series (mkBook 10%float "Low" "A" 1 false true true false 0))
  = get_rating (csv_series (mkBook 200%float "High" "ZZ" 2 false true true false 4)).
Proof.
  exact (@C9_rating_noninterference
           (to_series (mkBook 10%float "Low" "A" 1 false true true false 0))
           (csv_series (mkBook 200%float "High" "ZZ" 2 false true true false 4))
           eq_refl eq_refl eq_refl eq_refl).
Defined.

(** C7: the derivation is total.  When the source frame carries the four
    indicator columns, whatever their cells hold, [load_data] returns a
    frame with as many rows as the source, in the same order, each row
    being the source row with a [rating_score] cell between 1 and 5. *)
Theorem C7_derivation_total (read_csv : string -> result DataFrame) (df : DataFrame) :
  read_csv csv_path = Ok df ->
  forallb (has_column df) indicator_labels = true ->
  forallb has_indicators (rows df) = true ->
  exists df',
    load_data read_csv = Ok df' /\ len df' = len df /\
    Forall2 (fun row row' =>
               exists s, row' = setcell row "rating_score" (VInt s)
                         /\ getitem row' "rating_score" = Ok (VInt s)
                         /\ (1 <= s <= 5)%Z)
            (rows df) (rows df').
Proof.
  intros Hread _ Hind.
  destruct (load_data_total _ Hread Hind) as [df' Hload].
  exists df'. split; [ exact Hload | ].
  destruct (load_data_ok _ Hload) as (df0 & Hread0 & Hlen & HF).
  assert (df0 = df) as -> by congruence.
  split; [ exact Hlen | ].
  eapply Forall2_impl; [ | exact HF ].
  intros row row' (s & -> & Hs). exists s.
  split; [ reflexivity | ].
  split; [ apply getitem_setcell | eapply get_rating_range; exact Hs ].
Qed.

Lemma C7_derivation_total_witness :
  exists df',
    load_data (fun _ => Ok (csv_frame [book1; book2; book3])) = Ok df'
    /\ len df' = len (csv_frame [book1; book2; book3])
    /\ Forall2 (fun row row' =>
                  exists s, row' = setcell row "rating_score" (VInt s)
                            /\ getitem row' "rating_score" = Ok (VInt s)
                            /\ (1 <= s <= 5)%Z)
               (rows (csv_frame [book1; book2; book3])) (rows df').
Proof.
  exact (@C7_derivation_total (fun _ => Ok (csv_frame [book1; book2; book3]))
           (csv_frame [book1; book2; book3]) eq_refl eq_refl eq_refl).
Defined.

Lemma getitem_raise (row : Series) (l : string) (e : exn) :
  getitem row l = Raise e -> e = KeyError l.
Proof.
  induction row as [| [l' w] row IH]; cbn.
  - congruence.
  - destruct (String.eqb l' l); [ discriminate | exact IH ].
Qed.

Lemma has_label_false (row : Series) (l : string) :
  has_label row l = false <-> getitem row l = Raise (KeyError l).
Proof.
  unfold has_label. destruct (getitem row l) as [v | e] eqn:E.
  - split; discriminate.
  - rewrite (getitem_raise _ _ E). split; reflexivity.
Qed.

(** When and how [get_rating] raises: on the first lookup, in the order
    four, one, three, two, whose label the row lacks, provided every
    earlier label is there with a falsy cell. *)
Lemma get_rating_raise_iff (row : Series) (e : exn) :
  get_rating row = Raise e <->
  (has_label row "rating_four" = false /\ e = KeyError "rating_four")
  \/ (falsy_at row "rating_four"
      /\ has_label row "rating_one" = false /\ e = KeyError "rating_one")
  \/ (falsy_at row "rating_four" /\ falsy_at row "rating_one"
      /\ has_label row "rating_three" = false /\ e = KeyError "rating_three")
  \/ (falsy_at row "rating_four" /\ falsy_at row "rating_one"
      /\ falsy_at row "rating_three"
      /\ has_label row "rating_two" = false /\ e = KeyError "rating_two").
Proof.
  split.
  - unfold get_rating. intros H.
    destruct (getitem row "rating_four") as [v4 | e4] eqn:E4; cbn [bind] in H.
    2: { left. injection H as <-. rewrite has_label_false, E4.
         rewrite (getitem_raise _ _ E4). split; reflexivity. }
    destruct (truthy v4) eqn:T4; [ discriminate | ].
    assert (F4 : falsy_at row "rating_four") by (exists v4; split; assumption).
    right.
    destruct (getitem row "rating_one") as [v1 | e1] eqn:E1; cbn [bind] in H.
    2: { left. injection H as <-. rewrite has_label_false, E1.
         rewrite (getitem_raise _ _ E1). repeat split; auto. }
    destruct (truthy v1) eqn:T1; [ discriminate | ].
    assert (F1 : falsy_at row "rating_one") by (exists v1; split; assumption).
    right.
    destruct (getitem row "rating_three") as [v3 | e3] eqn:E3; cbn [bind] in H.
    2: { left. injection H as <-. rewrite has_label_false, E3.
         rewrite (getitem_raise _ _ E3). repeat split; auto. }
    destruct (truthy v3) eqn:T3; [ discriminate | ].
    assert (F3 : falsy_at row "rating_three") by (exists v3; split; assumption).
    right.
    destruct (getitem row "rating_two") as [v2 | e2] eqn:E2; cbn [bind] in H.
    2: { injection H as <-. rewrite has_label_false, E2.
         rewrite (getitem_raise _ _ E2). repeat split; auto. }
    destruct (truthy v2); discriminate.
  - unfold get_rating, falsy_at. rewrite !has_label_false.
    intros [(H4 & ->) | [((v4 & E4 & T4) & H1 & ->)
      | [((v4 & E4 & T4) & (v1 & E1 & T1) & H3 & ->)
        | ((v4 & E4 & T4) & (v1 & E1 & T1) & (v3 & E3 & T3) & H2 & ->)]]].
    + rewrite H4. reflexivity.
    + rewrite E4. cbn [bind]. rewrite T4, H1. reflexivity.
    + rewrite E4. cbn [bind]. rewrite T4, E1. cbn [bind]. rewrite T1, H3.
      reflexivity.
    + rewrite E4. cbn [bind]. rewrite T4, E1. cbn [bind]. rewrite T1, E3.
      cbn [bind]. rewrite T3, H2. reflexivity.
Qed.

Lemma mapM_first_raise {A B : Type} (f : A -> result B)
    (pre post : list A) (a : A) (e : exn) :
  Forall (fun x => exists b, f x = Ok b) pre -> f a = Raise e ->
  mapM f (pre ++ a :: post) = Raise e.
Proof.
  intros Hpre Ha. induction Hpre as [| x pre [b Hb] _ IH]; cbn.
  - rewrite Ha. reflexivity.
  - rewrite Hb. cbn [bind]. rewrite IH. reflexivity.
Qed.

(** C4, as the code has it: [load_data] raises the reader's exception when
    the source cannot be read.  It raises the [KeyError] of the first row,
    in table order, whose derivation fails; a derivation fails exactly on
    the first lookup, in the order [rating_four], [rating_one],
    [rating_three], [rating_two], whose label the row lacks, and a label is
    looked up only when every earlier one is there with a falsy cell.  It
    never loads partially: when it returns, the frame has every row of the
    source, each with the score [get_rating] gives it.  The price, category
    and title columns are not looked at: a source with the four indicator
    columns loads whatever else it has or lacks. *)
Theorem C4_load_failures (read_csv : string -> result DataFrame) :
  (forall e, read_csv csv_path = Raise e -> load_data read_csv = Raise e)
  /\ (forall df pre row post e,
        read_csv csv_path = Ok df ->
        rows df = pre ++ row :: post ->
        Forall (fun r => exists s, get_rating r = Ok s) pre ->
        get_rating row = Raise e ->
        load_data read_csv = Raise e)
  /\ (forall row e,
        get_rating row = Raise e <->
        (has_label row "rating_four" = false /\ e = KeyError "rating_four")
        \/ (falsy_at row "rating_four"
            /\ has_label row "rating_one" = false
            /\ e = KeyError "rating_one")
        \/ (falsy_at row "rating_four" /\ falsy_at row "rating_one"
            /\ has_label row "rating_three" = false
            /\ e = KeyError "rating_three")
        \/ (falsy_at row "rating_four" /\ falsy_at row "rating_one"
            /\ falsy_at row "rating_three"
            /\ has_label row "rating_two" = false
            /\ e = KeyError "rating_two"))
  /\ (forall df',
        load_data read_csv = Ok df' ->
        exists df, read_csv csv_path = Ok df /\ len df' = len df /\
          Forall2 (fun row row' =>
                     exists s, get_rating row = Ok s
                               /\ row' = setcell row "rating_score" (VInt s))
                  (rows df) (rows df'))
  /\ (forall df,
        read_csv csv_path = Ok df ->
        forallb (has_column df) indicator_labels = true ->
        forallb has_indicators (rows df) = true ->
        exists df', load_data read_csv = Ok df').
Proof.
  split; [ | split; [ | split; [ | split ] ] ].
  - intros e Hread. unfold load_data. rewrite Hread. reflexivity.
  - intros df pre row post e Hread Hrows Hpre Hrow.
    unfold load_data, apply. rewrite Hread. cbn [bind].
    rewrite Hrows, (@mapM_first_raise _ _ get_rating pre post row e Hpre Hrow).
    reflexivity.
  - apply get_rating_raise_iff.
  - intros df' Hload.
    destruct (load_data_ok _ Hload) as (df & Hread & Hlen & HF).
    exists df. split; [ exact Hread | ]. split; [ exact Hlen | ].
    eapply Forall2_impl; [ | exact HF ].
    intros row row' (s & -> & Hs). exists s. split; [ exact Hs | reflexivity ].
  - intros df Hread _ Hind. exact (load_data_total _ Hread Hind).
Qed.

Lemma C4_load_failures_witness :
  load_data (fun p => Raise (OSError p)) = Raise (OSError csv_path)
  /\ load_data (fun _ => Ok no_four) = Raise (KeyError "rating_four")
  /\ get_rating [("rating_four"%string, VBool false);
                 ("rating_three"%string, VBool true)]
     = Raise (KeyError "rating_one").
Proof.
  split; [ | split ].
  - exact (proj1 (C4_load_failures (fun p => Raise (OSError p)))
             (OSError csv_path) eq_refl).
  - exact (proj1 (proj2 (C4_load_failures (fun _ => Ok no_four)))
             no_four [] [("price"%string, VFloat 10%float)] []
             (KeyError "rating_four") eq_refl eq_refl (Forall_nil _) eq_refl).
  - apply (proj1 (proj2 (proj2 (C4_load_failures (fun _ => Ok no_four))))).
    right. left. split; [ | split; reflexivity ].
    exists (VBool false). split; reflexivity.
Defined.

(** C4 as stated fails: a source without the [price], [price_category],
    [title] and [title_length] columns loads, and so does one without
    [rating_one], [rating_three] and [rating_two] when [rating_four] is set
    on every row. *)
Lemma C4_counterexample :
  has_column indicators_only "price" = false
  /\ has_column indicators_only "price_category" = false
  /\ has_column indicators_only "title" = false
  /\ has_column indicators_only "title_length" = false
  /\ load_data (fun _ => Ok indicators_only)
     = Ok {| columns := ["rating_four"; "rating_three"; "rating_two";
                         "rating_one"; "rating_score"]%string;
             rows := [[("rating_four"%string, VBool false);
                       ("rating_three"%string, VBool true);
                       ("rating_two"%string, VBool false);
                       ("rating_one"%string, VBool false);
                       ("rating_score"%string, VInt 3)]] |}
  /\ has_column four_only "rating_one" = false
  /\ load_data (fun _ => Ok four_only)
     = Ok {| columns := ["rating_four"; "rating_score"]%string;
             rows := [[("rating_four"%string, VBool true);
                       ("rating_score"%string, VInt 4)]] |}.
Proof. repeat split. Qed.

(** ** The filter on the frame of a table *)

Lemma getcol_frame_price (T : list BookRecord) :
  getcol (frame T) "price" = Ok (map (fun r => VFloat (price r)) T).
Proof. unfold getcol. cbn. apply mapM_map_ok. reflexivity. Qed.

Lemma getcol_frame_category (T : list BookRecord) :
  getcol (frame T) "price_category" = Ok (map (fun r => VStr (price_category r)) T).
Proof. unfold getcol. cbn. apply mapM_map_ok. reflexivity. Qed.

Lemma getcol_frame_score (T : list BookRecord) :
  getcol (frame T) "rating_score" = Ok (map (fun r => VInt (rating_score r)) T).
Proof. unfold getcol. cbn. apply mapM_map_ok. reflexivity. Qed.

Lemma getcol_frame_title_length (T : list BookRecord) :
  getcol (frame T) "title_length" = Ok (map (fun r => VInt (title_length r)) T).
Proof. unfold getcol. cbn. apply mapM_map_ok. reflexivity. Qed.

Lemma ge_scalar_prices (T : list BookRecord) (x : float) :
  ge_scalar (map (fun r => VFloat (price r)) T) x
  = Ok (map (fun r => PrimFloat.leb x (price r)) T).
Proof. unfold ge_scalar. apply mapM_map_ok. reflexivity. Qed.

Lemma le_scalar_prices (T : list BookRecord) (x : float) :
  le_scalar (map (fun r => VFloat (price r)) T) x
  = Ok (map (fun r => PrimFloat.leb (price r) x) T).
Proof. unfold le_scalar. apply mapM_map_ok. reflexivity. Qed.

Lemma existsb_map {A B : Type} (p : B -> bool) (g : A -> B) (l : list A) :
  existsb p (map g l) = existsb (fun a => p (g a)) l.
Proof. induction l as [| a l IH]; cbn; [ reflexivity | rewrite IH; reflexivity ]. Qed.

Lemma existsb_pointwise {A : Type} (p q : A -> bool) (l : list A) :
  (forall a, p a = q a) -> existsb p l = existsb q l.
Proof.
  intros H. induction l as [| a l IH]; cbn; [ reflexivity | ].
  rewrite H, IH. reflexivity.
Qed.

Lemma isin_categories (T : list BookRecord) (cats : list string) :
  isin (map (fun r => VStr (price_category r)) T) (map VStr cats)
  = map (fun r => existsb (String.eqb (price_category r)) cats) T.
Proof.
  unfold isin. rewrite map_map. apply map_ext. intros r.
  rewrite existsb_map. apply existsb_pointwise. intros s. cbn. apply orb_false_r.
Qed.

Lemma isin_scores (T : list BookRecord) (rs : list Z) :
  isin (map (fun r => VInt (rating_score r)) T) (map VInt rs)
  = map (fun r => existsb (Z.eqb (rating_score r)) rs) T.
Proof.
  unfold isin. rewrite map_map. apply map_ext. intros r.
  rewrite existsb_map. apply existsb_pointwise. intros s. cbn. apply orb_false_r.
Qed.

Lemma mask_and_map {A : Type} (f g : A -> bool) (l : list A) :
  mask_and (map f l) (map g l) = map (fun a => f a && g a) l.
Proof. induction l as [| a l IH]; cbn; [ reflexivity | rewrite IH; reflexivity ]. Qed.

Lemma select_rows_map {A : Type} (g : A -> Series) (f : A -> bool) (l : list A) :
  select_rows (map g l) (map f l) = map g (filter f l).
Proof.
  induction l as [| a l IH]; cbn; [ reflexivity | ].
  destruct (f a); cbn; rewrite IH; reflexivity.
Qed.

(** On the frame of a table the script's filter returns the frame of the
    records that pass [included], in the table's order. *)
Lemma run_filter_frame (T : list BookRecord) (c : FilterCriteria) :
  run_filter T c = Ok (frame (filter (included c) T)).
Proof.
  unfold run_filter, filtered_df.
  rewrite getcol_frame_price. cbn [bind fst snd].
  rewrite ge_scalar_prices, le_scalar_prices. cbn [bind].
  rewrite getcol_frame_category, getcol_frame_score. cbn [bind].
  rewrite isin_categories, isin_scores, !mask_and_map.
  unfold getmask, frame. cbn [columns rows].
  rewrite select_rows_map. reflexivity.
Qed.

Lemma existsb_string_In (s : string) (l : list string) :
  existsb (String.eqb s) l = true <-> In s l.
Proof.
  rewrite existsb_exists. split.
  - intros (x & Hin & Heq). apply String.eqb_eq in Heq. subst. exact Hin.
  - intros Hin. exists s. split; [ exact Hin | apply String.eqb_refl ].
Qed.

Lemma existsb_Z_In (n : Z) (l : list Z) :
  existsb (Z.eqb n) l = true <-> In n l.
Proof.
  rewrite existsb_exists. split.
  - intros (x & Hin & Heq). apply Z.eqb_eq in Heq. subst. exact Hin.
  - intros Hin. exists n. split; [ exact Hin | apply Z.eqb_refl ].
Qed.

Lemma included_spec (c : FilterCriteria) (r : BookRecord) :
  included c r = true <->
  PrimFloat.leb (price_min c) (price r) = true
  /\ PrimFloat.leb (price r) (price_max c) = true
  /\ In (price_category r) (allowed_categories c)
  /\ In (rating_score r) (allowed_ratings c).
Proof.
  unfold included. rewrite !andb_true_iff, existsb_string_In, existsb_Z_In.
  tauto.
Qed.

Lemma filter_Subseq {A : Type} (f : A -> bool) (l : list A) :
  Subseq (filter f l) l.
Proof.
  induction l as [| a l IH]; cbn; [ constructor | ].
  destruct (f a); constructor; exact IH.
Qed.

Lemma included_ext (c c' : FilterCriteria) (r : BookRecord) :
  price_min c' = price_min c -> price_max c' = price_max c ->
  (forall s, In s (allowed_categories c') <-> In s (allowed_categories c)) ->
  (forall n, In n (allowed_ratings c') <-> In n (allowed_ratings c)) ->
  included c' r = included c r.
Proof.
  intros Hmin Hmax Hcat Hrat.
  apply eq_true_iff_eq. rewrite !included_spec, Hmin, Hmax, Hcat, Hrat.
  reflexivity.
Qed.

Lemma Subseq_nil_l {A : Type} (l : list A) : Subseq [] l.
Proof. induction l; constructor; assumption. Qed.

Lemma select_rows_Subseq (rs : list Series) (mask : list bool) :
  Subseq (select_rows rs mask) rs.
Proof.
  revert mask. induction rs as [| r rs IH]; intros [| b mask]; cbn;
    try apply Subseq_nil_l.
  destruct b; constructor; apply IH.
Qed.

(** On any frame at all, what [filtered_df] returns has the frame's columns
    and a subsequence of its rows. *)
Lemma filtered_df_Subseq (df v : DataFrame) (price_range : float * float)
    (selected_cat selected_ratings : list value) :
  filtered_df df price_range selected_cat selected_ratings = Ok v ->
  columns v = columns df /\ Subseq (rows v) (rows df).
Proof.
  unfold filtered_df.
  destruct (getcol df "price"); cbn [bind]; [ | discriminate ].
  destruct (ge_scalar _ _); cbn [bind]; [ | discriminate ].
  destruct (le_scalar _ _); cbn [bind]; [ | discriminate ].
  destruct (getcol df "price_category"); cbn [bind]; [ | discriminate ].
  destruct (getcol df "rating_score"); cbn [bind]; [ | discriminate ].
  intros H. injection H as <-. cbn.
  split; [ reflexivity | apply select_rows_Subseq ].
Qed.

Lemma filter_none {A : Type} (f : A -> bool) (l : list A) :
  (forall a, f a = false) -> filter f l = [].
Proof.
  intros H. induction l as [| a l IH]; cbn; [ reflexivity | ].
  rewrite H. exact IH.
Qed.

Lemma included_no_category (lo hi : float) (ratings : list Z) (r : BookRecord) :
  included (mkCriteria lo hi [] ratings) r = false.
Proof. unfold included. cbn. rewrite andb_false_r. reflexivity. Qed.

Lemma included_no_rating (lo hi : float) (cats : list string) (r : BookRecord) :
  included (mkCriteria lo hi cats []) r = false.
Proof. unfold included. cbn. apply andb_false_r. Qed.

(** C2: on every table and for every criteria the filtered view is the frame
    of exactly the records with [price_min <= price <= price_max] (both
    bounds inclusive), a category among the allowed ones and a score among
    the allowed ones; the three conditions are joined by "and". *)
Theorem C2_filter_inclusion (T : list BookRecord) (c : FilterCriteria) :
  run_filter T c = Ok (frame (filter (included c) T))
  /\ forall r,
       In r (filter (included c) T) <->
       In r T
       /\ PrimFloat.leb (price_min c) (price r) = true
       /\ PrimFloat.leb (price r) (price_max c) = true
       /\ In (price_category r) (allowed_categories c)
       /\ In (rating_score r) (allowed_ratings c).
Proof.
  split; [ apply run_filter_frame | ].
  intros r. rewrite filter_In, included_spec. reflexivity.
Qed.

(** C5: with no allowed category, and likewise with no allowed rating, the
    filter returns the empty view for every table, price range and the
    other selection: no exception and no fall-back to all records. *)
Theorem C5_empty_selection (T : list BookRecord) (lo hi : float) :
  (forall ratings, run_filter T (mkCriteria lo hi [] ratings) = Ok (frame []))
  /\ (forall cats, run_filter T (mkCriteria lo hi cats []) = Ok (frame [])).
Proof.
  split; intros sel; rewrite run_filter_frame, filter_none;
    auto using included_no_category, included_no_rating.
Qed.

(** C6: the filtered view is a subsequence of the table (a subset in the
    table's order), and the filter is a function of the table and of the
    criteria by value: criteria with the same bounds and the same members
    in the two allowed sets give the identical view on an equal table. *)
Theorem C6_filter_pure_subsequence (T : list BookRecord) (c : FilterCriteria) :
  (exists V, run_filter T c = Ok (frame V) /\ Subseq V T)
  /\ forall T' c',
       T' = T ->
       price_min c' = price_min c -> price_max c' = price_max c ->
       (forall s, In s (allowed_categories c') <-> In s (allowed_categories c)) ->
       (forall n, In n (allowed_ratings c') <-> In n (allowed_ratings c)) ->
       run_filter T' c' = run_filter T c.
Proof.
  split.
  - exists (filter (included c) T). split; [ apply run_filter_frame | ].
    apply filter_Subseq.
  - intros T' c' -> Hmin Hmax Hcat Hrat. rewrite !run_filter_frame.
    do 2 f_equal. apply filter_ext. intros r.
    apply included_ext; assumption.
Qed.

Lemma C6_filter_pure_subsequence_witness :
  run_filter [book1; book2; book3]
             (mkCriteria 0%float 100%float ["High"; "Low"; "Low"]%string [0; 5]%Z)
  = run_filter [book1; book2; book3]
               (mkCriteria 0%float 100%float ["Low"; "High"]%string [5; 0]%Z).
Proof.
  apply (proj2 (C6_filter_pure_subsequence [book1; book2; book3]
                  (mkCriteria 0%float 100%float ["Low"; "High"]%string [5; 0]%Z)));
    try reflexivity; intros x; cbn; tauto.
Defined.

(** ** The KPIs on an empty view *)

(** C3: on the empty view the guarded mean title length is 0, and the
    unguarded mean price is the float64 NaN of 0/0, not 0.  The empty view
    is the one the filter returns when no category is selected. *)
Theorem C3_means_on_empty_view (T : list BookRecord) (lo hi : float)
    (ratings : list Z) :
  run_filter T (mkCriteria lo hi [] ratings) = Ok (frame [])
  /\ total_inventory (frame []) = 0%nat
  /\ avg_len (frame []) = Ok (VInt 0)
  /\ avg_len_chars (frame []) = Ok 0%Z
  /\ avg_price (frame []) = Ok PrimFloat.nan
  /\ PrimFloat.eqb PrimFloat.nan PrimFloat.zero = false.
Proof.
  split; [ | repeat split ].
  rewrite run_filter_frame, filter_none; auto using included_no_category.
Qed.

(** ** The leaderboard *)

Lemma combine_map_same {A B C : Type} (f : A -> B) (g : A -> C) (l : list A) :
  combine (map f l) (map g l) = map (fun a => (f a, g a)) l.
Proof. induction l as [| a l IH]; cbn; [ reflexivity | rewrite IH; reflexivity ]. Qed.

Lemma insert_desc_books (r : BookRecord) (l : list BookRecord) :
  insert_desc (price r, to_series r) (map (fun a => (price a, to_series a)) l)
  = map (fun a => (price a, to_series a)) (insert_book r l).
Proof.
  induction l as [| r' l IH]; [ reflexivity | ].
  cbn [insert_desc insert_book map fst].
  destruct (PrimFloat.leb (price r') (price r)); [ reflexivity | ].
  rewrite IH. reflexivity.
Qed.

Lemma sort_desc_books (l : list BookRecord) :
  sort_desc (map (fun a => (price a, to_series a)) l)
  = map (fun a => (price a, to_series a)) (sort_books l).
Proof.
  unfold sort_desc, sort_books.
  induction l as [| r l IH]; [ reflexivity | ].
  cbn [map fold_right]. rewrite IH. apply insert_desc_books.
Qed.

(** [nlargest] on the frame of a list of records is the frame of the first
    [n] records in leaderboard order. *)
Lemma nlargest_frame (dt : dtype) (n : nat) (V : list BookRecord) :
  dt <> Dobject ->
  nlargest dt n "price" (frame V) = Ok (frame (firstn n (ranked V))).
Proof.
  intros Hdt. unfold nlargest. rewrite getcol_frame_price. cbn [bind].
  transitivity
    (keys <- mapM to_float (map (fun r => VFloat (price r)) V) ;;
     Ok {| columns := columns (frame V);
           rows := firstn n
             (map snd
                (sort_desc
                   (filter (fun kr => negb (PrimFloat.is_nan (fst kr)))
                           (combine keys (rows (frame V))))
                 ++ filter (fun kr => PrimFloat.is_nan (fst kr))
                           (combine keys (rows (frame V))))) |});
    [ destruct dt; try reflexivity; congruence | ].
  rewrite (mapM_map_ok to_float (fun r => VFloat (price r)) price)
    by reflexivity.
  cbn [bind]. unfold frame. cbn [rows columns].
  rewrite combine_map_same, !filter_map_swap. cbn [fst].
  rewrite sort_desc_books, <- map_app, map_map. cbn [snd].
  rewrite firstn_map. reflexivity.
Qed.

Lemma getcols_frame (V : list BookRecord) :
  getcols (frame V) ["title"%string; "price"%string] = Ok (board_frame V).
Proof.
  unfold getcols. cbn [mapM bind]. cbn -[mapM].
  rewrite (mapM_map_ok _ to_series board_series) by reflexivity.
  reflexivity.
Qed.

Lemma infer_dtype_prices (T : list BookRecord) :
  T <> [] -> infer_dtype (map (fun r => VFloat (price r)) T) = Dfloat64.
Proof.
  destruct T as [| r T]; [ congruence | intros _ ]. cbn [map infer_dtype cell_dtype].
  induction T as [| r' T IH]; [ reflexivity | exact IH ].
Qed.

(** The leaderboard of a list of records cut from a table with a row. *)
Lemma top_10_frame (T V : list BookRecord) :
  T <> [] ->
  top_10 (frame T) (frame V) = Ok (board_frame (firstn 10 (ranked V))).
Proof.
  intros HT. unfold top_10, column_dtype. rewrite getcol_frame_price.
  cbn [bind]. rewrite (infer_dtype_prices HT).
  rewrite nlargest_frame by discriminate. cbn [bind]. apply getcols_frame.
Qed.

(** On the table of a CSV with a header and no row the price column is of
    dtype [object], and the leaderboard raises. *)
Lemma top_10_no_row (V : list BookRecord) :
  top_10 (frame []) (frame V) = Raise TypeError.
Proof.
  unfold top_10, column_dtype, nlargest. rewrite !getcol_frame_price.
  reflexivity.
Qed.

Lemma insert_book_perm (r : BookRecord) (l : list BookRecord) :
  Permutation (insert_book r l) (r :: l).
Proof.
  induction l as [| r' l IH]; cbn; [ reflexivity | ].
  destruct (PrimFloat.leb (price r') (price r)); [ reflexivity | ].
  rewrite IH. apply perm_swap.
Qed.

Lemma sort_books_perm (l : list BookRecord) : Permutation (sort_books l) l.
Proof.
  unfold sort_books. induction l as [| r l IH]; cbn; [ reflexivity | ].
  rewrite insert_book_perm, IH. reflexivity.
Qed.

Lemma insert_book_sorted (r : BookRecord) (l : list BookRecord) :
  has_price r = true -> Forall (fun a => has_price a = true) l ->
  StronglySorted price_ge l -> StronglySorted price_ge (insert_book r l).
Proof.
  intros Hr Hl Hs. induction Hs as [| r' l Hs IH Hall]; cbn.
  - repeat constructor.
  - inversion Hl as [| ? ? Hr' Hl']; subst.
    destruct (PrimFloat.leb (price r') (price r)) eqn:E.
    + constructor; [ constructor; assumption | ].
      constructor; [ exact E | ].
      eapply Forall_impl; [ | exact Hall ].
      intros a Ha. unfold price_ge in *. eapply leb_trans; eassumption.
    + constructor; [ apply IH; exact Hl' | ].
      assert (Hge : price_ge r' r).
      { unfold price_ge. unfold has_price in Hr, Hr'.
        apply negb_true_iff in Hr, Hr'. apply leb_total; assumption. }
      eapply Permutation_Forall; [ symmetry; apply insert_book_perm | ].
      constructor; assumption.
Qed.

Lemma sort_books_sorted (l : list BookRecord) :
  Forall (fun a => has_price a = true) l ->
  StronglySorted price_ge (sort_books l).
Proof.
  unfold sort_books. induction 1 as [| r l Hr Hl IH]; cbn; [ constructor | ].
  apply insert_book_sorted; [ exact Hr | | exact IH ].
  eapply Permutation_Forall; [ symmetry; apply sort_books_perm | exact Hl ].
Qed.


Lemma included_has_price (c : FilterCriteria) (r : BookRecord) :
  included c r = true -> has_price r = true.
Proof.
  rewrite included_spec. intros (Hlo & _).
  unfold has_price. apply negb_true_iff. apply (leb_not_nan Hlo).
Qed.

Lemma ranked_priced (l : list BookRecord) :
  Forall (fun a => has_price a = true) l -> ranked l = sort_books l.
Proof.
  intros H. unfold ranked.
  assert (H1 : filter has_price l = l).
  { induction H as [| r l Hr _ IH]; cbn; [ reflexivity | ].
    rewrite Hr, IH. reflexivity. }
  assert (H2 : filter (fun r => PrimFloat.is_nan (price r)) l = []).
  { clear H1. induction H as [| r l Hr _ IH]; cbn; [ reflexivity | ].
    unfold has_price in Hr. apply negb_true_iff in Hr. rewrite Hr. exact IH. }
  rewrite H1, H2. apply app_nil_r.
Qed.




(** ** Loading the frame of a table, and loading an exported view again *)


Lemma get_rating_to_series (r : BookRecord) :
  get_rating (to_series r) = Ok (precedence_score r).
Proof.
  destruct r as [p c t n b4 b3 b2 b1 s]. unfold precedence_score. cbn.
  destruct b4, b1, b3, b2; reflexivity.
Qed.


Lemma setcells_to_series (T : list BookRecord) :
  setcells (map to_series T) "rating_score" (map VInt (map precedence_score T))
  = map to_series (map with_score T).
Proof. induction T as [| r T IH]; cbn; [ reflexivity | rewrite IH; reflexivity ]. Qed.


(** The loader on a frame that already has the [rating_score] column: the
    column is overwritten with the derived score. *)
Lemma load_data_frame (T : list BookRecord) :
  load_data (fun _ => Ok (frame T)) = Ok (frame (map with_score T)).
Proof.
  unfold load_data, apply. cbn [bind frame rows].
  rewrite (mapM_map_ok get_rating to_series precedence_score)
    by apply get_rating_to_series.
  cbn [bind]. unfold setitem, frame. cbn [rows columns].
  rewrite !length_map, Nat.eqb_refl, setcells_to_series. reflexivity.
Qed.

Lemma with_score_idem (r : BookRecord) : with_score (with_score r) = with_score r.
Proof. reflexivity. Qed.

(** A view filtered from a loaded table is a fixed point of the loader:
    deriving the score again from the exported indicator cells gives the
    score the view already carries.  (The CSV text between [to_csv] and
    [read_csv] is not part of this statement.) *)
Lemma load_data_view (T : list BookRecord) (c : FilterCriteria) :
  load_data (fun _ => Ok (frame (filter (included c) (map with_score T))))
  = Ok (frame (filter (included c) (map with_score T))).
Proof.
  rewrite load_data_frame. do 2 f_equal.
  induction T as [| r T IH]; cbn [map filter]; [ reflexivity | ].
  destruct (included c (with_score r)); cbn [map]; rewrite IH; reflexivity.
Qed.

(** * Further properties of the script *)

(** ** Least and largest price *)

Lemma leb_refl (x : float) : PrimFloat.is_nan x = false -> PrimFloat.leb x x = true.
Proof.
  intros Hx. destruct (PrimFloat.leb x x) eqn:E; [ reflexivity | ].
  pose proof (leb_total Hx Hx E). congruence.
Qed.

Section Extremum.
(** [before m x] tells whether the running extremum [m] is kept against
    [x]: it is [leb m x] for the minimum and [leb x m] for the maximum. *)
Variable before : float -> float -> bool.
Hypothesis before_refl : forall x, PrimFloat.is_nan x = false -> before x x = true.
Hypothesis before_trans :
  forall x y z, before x y = true -> before y z = true -> before x z = true.
Hypothesis before_total :
  forall x y, PrimFloat.is_nan x = false -> PrimFloat.is_nan y = false ->
              before x y = false -> before y x = true.

Lemma fold_extremum (ys : list float) (y : float) :
  PrimFloat.is_nan y = false ->
  Forall (fun x => PrimFloat.is_nan x = false) ys ->
  let m := fold_left (fun m x => if before m x then m else x) ys y in
  In m (y :: ys) /\ Forall (fun x => before m x = true) (y :: ys).
Proof.
  intros Hy Hys. revert y Hy.
  induction Hys as [| x ys Hx Hys IH]; intros y Hy; cbn [fold_left].
  - split; [ left; reflexivity | ]. constructor; [ auto | constructor ].
  - destruct (before y x) eqn:E.
    + destruct (IH y Hy) as [Hin Hall]. inversion Hall as [| ? ? Hmy Hrest]; subst.
      split; [ destruct Hin as [<- | Hin]; [ left | right; right ]; auto | ].
      constructor; [ exact Hmy | ].
      constructor; [ eapply before_trans; eassumption | exact Hrest ].
    + destruct (IH x Hx) as [Hin Hall]. inversion Hall as [| ? ? Hmx Hrest]; subst.
      split; [ right; exact Hin | ].
      constructor; [ | constructor; assumption ].
      eapply before_trans; [ exact Hmx | ]. apply before_total; assumption.
Qed.

End Extremum.

Lemma filter_has_price_prices (V : list BookRecord) :
  filter (fun x => negb (PrimFloat.is_nan x)) (map price V)
  = map price (filter has_price V).
Proof. apply filter_map_swap. Qed.

Lemma Forall_has_price_filter (V : list BookRecord) :
  Forall (fun x => PrimFloat.is_nan x = false) (map price (filter has_price V)).
Proof.
  apply Forall_forall. intros x Hx. apply in_map_iff in Hx.
  destruct Hx as (r & <- & Hr). apply filter_In in Hr.
  destruct Hr as [_ Hr]. apply negb_true_iff. exact Hr.
Qed.

(** The least price of the column: NaN when no record has a price, else a
    price of the table below every price of the table. *)
Lemma col_min_frame (V : list BookRecord) :
  exists lo, col_min (map (fun r => VFloat (price r)) V) = Ok lo /\
    (filter has_price V = [] -> lo = PrimFloat.nan) /\
    (filter has_price V <> [] ->
       (exists r, In r V /\ has_price r = true /\ price r = lo) /\
       forall r, In r V -> has_price r = true ->
                 PrimFloat.leb lo (price r) = true).
Proof.
  unfold col_min.
  rewrite (mapM_map_ok to_float (fun r => VFloat (price r)) price) by reflexivity.
  cbn [bind]. rewrite filter_has_price_prices.
  pose proof (Forall_has_price_filter V) as HF.
  destruct (filter has_price V) as [| r0 W] eqn:EW; cbn [map].
  - eexists. split; [ reflexivity | ]. split; [ reflexivity | congruence ].
  - eexists. split; [ reflexivity | ]. split; [ discriminate | intros _ ].
    cbn [map] in HF. inversion HF as [| ? ? H0 HW]; subst.
    destruct (@fold_extremum (fun m x => PrimFloat.leb m x) leb_refl leb_trans
                (fun x y Hx Hy E => leb_total Hx Hy E)
                (map price W) (price r0) H0 HW) as [Hin Hall].
    cbv zeta in Hin, Hall.
    change (price r0 :: map price W) with (map price (r0 :: W)) in Hin, Hall.
    rewrite <- EW in Hin, Hall. split.
    + apply in_map_iff in Hin. destruct Hin as (r & Hr & Hin).
      apply filter_In in Hin. exists r. tauto.
    + intros r Hr Hp. rewrite Forall_forall in Hall. apply Hall.
      apply in_map. apply filter_In. tauto.
Qed.

Lemma col_max_frame (V : list BookRecord) :
  exists hi, col_max (map (fun r => VFloat (price r)) V) = Ok hi /\
    (filter has_price V = [] -> hi = PrimFloat.nan) /\
    (filter has_price V <> [] ->
       (exists r, In r V /\ has_price r = true /\ price r = hi) /\
       forall r, In r V -> has_price r = true ->
                 PrimFloat.leb (price r) hi = true).
Proof.
  unfold col_max.
  rewrite (mapM_map_ok to_float (fun r => VFloat (price r)) price) by reflexivity.
  cbn [bind]. rewrite filter_has_price_prices.
  pose proof (Forall_has_price_filter V) as HF.
  destruct (filter has_price V) as [| r0 W] eqn:EW; cbn [map].
  - eexists. split; [ reflexivity | ]. split; [ reflexivity | congruence ].
  - eexists. split; [ reflexivity | ]. split; [ discriminate | intros _ ].
    cbn [map] in HF. inversion HF as [| ? ? H0 HW]; subst.
    destruct (@fold_extremum (fun m x => PrimFloat.leb x m) leb_refl
                (fun x y z Hxy Hyz => leb_trans Hyz Hxy)
                (fun x y Hx Hy E => leb_total Hy Hx E)
                (map price W) (price r0) H0 HW) as [Hin Hall].
    cbv zeta in Hin, Hall.
    change (price r0 :: map price W) with (map price (r0 :: W)) in Hin, Hall.
    rewrite <- EW in Hin, Hall. split.
    + apply in_map_iff in Hin. destruct Hin as (r & Hr & Hin).
      apply filter_In in Hin. exists r. tauto.
    + intros r Hr Hp. rewrite Forall_forall in Hall.
      apply (Hall (price r)). apply in_map. apply filter_In. tauto.
Qed.

Lemma filter_all {A : Type} (f : A -> bool) (l : list A) :
  Forall (fun a => f a = true) l -> filter f l = l.
Proof.
  induction 1 as [| a l Ha _ IH]; cbn; [ reflexivity | ].
  rewrite Ha, IH. reflexivity.
Qed.

Lemma view_has_price (T : list BookRecord) (c : FilterCriteria) :
  Forall (fun r => has_price r = true) (filter (included c) T).
Proof.
  apply Forall_forall. intros r Hr. apply filter_In in Hr.
  eapply included_has_price. apply Hr.
Qed.

(** X12 (lines 28-29): the ends of the price slider.  On a table with at
    least one priced record [min_p] and [max_p] are prices of the table,
    [min_p <= max_p], and every priced record lies between them; on a table
    with no priced record (an empty one too) both are NaN. *)
Theorem X12_price_bounds (T : list BookRecord) :
  (filter has_price T = [] ->
     price_bounds (frame T) = Ok (PrimFloat.nan, PrimFloat.nan))
  /\ (filter has_price T <> [] ->
        exists lo hi,
          price_bounds (frame T) = Ok (lo, hi)
          /\ PrimFloat.leb lo hi = true
          /\ (exists r, In r T /\ price r = lo)
          /\ (exists r, In r T /\ price r = hi)
          /\ forall r, In r T -> has_price r = true ->
               PrimFloat.leb lo (price r) = true
               /\ PrimFloat.leb (price r) hi = true).
Proof.
  unfold price_bounds. rewrite getcol_frame_price. cbn [bind].
  destruct (col_min_frame T) as (lo & -> & Hlo0 & Hlo).
  destruct (col_max_frame T) as (hi & -> & Hhi0 & Hhi). cbn [bind].
  split.
  - intros E. rewrite (Hlo0 E), (Hhi0 E). reflexivity.
  - intros NE. destruct (Hlo NE) as [(rl & Hrl & Hpl & El) Hlow].
    destruct (Hhi NE) as [(rh & Hrh & Hph & Eh) Hhigh].
    exists lo, hi. split; [ reflexivity | ].
    split; [ rewrite <- Eh; apply Hlow; assumption | ].
    split; [ exists rl; tauto | ]. split; [ exists rh; tauto | ].
    intros r Hr Hp. split; [ apply Hlow | apply Hhigh ]; assumption.
Qed.

Lemma X12_price_bounds_witness :
  exists lo hi,
    price_bounds (frame [book2; book1; book3]) = Ok (lo, hi)
    /\ PrimFloat.leb lo hi = true
    /\ (exists r, In r [book2; book1; book3] /\ price r = lo)
    /\ (exists r, In r [book2; book1; book3] /\ price r = hi)
    /\ forall r, In r [book2; book1; book3] -> has_price r = true ->
         PrimFloat.leb lo (price r) = true
         /\ PrimFloat.leb (price r) hi = true.
Proof.
  apply (proj2 (X12_price_bounds [book2; book1; book3])). discriminate.
Defined.

(** X2 (line 60): the Highest Price KPI.  On a non-empty filtered view it
    is the price of a record of the view and no record of the view has a
    larger one; on the empty view it is NaN, there being no guard as the
    one of line 62. *)
Theorem X2_highest_price (T : list BookRecord) (c : FilterCriteria) :
  (filter (included c) T = [] ->
     highest_price (frame (filter (included c) T)) = Ok PrimFloat.nan)
  /\ (filter (included c) T <> [] ->
        exists hi,
          highest_price (frame (filter (included c) T)) = Ok hi
          /\ (exists r, In r (filter (included c) T) /\ price r = hi)
          /\ forall r, In r (filter (included c) T) ->
               PrimFloat.leb (price r) hi = true).
Proof.
  set (V := filter (included c) T).
  pose proof (view_has_price T c) as HV. fold V in HV.
  unfold highest_price. rewrite getcol_frame_price. cbn [bind].
  destruct (col_max_frame V) as (hi & -> & Hhi0 & Hhi).
  rewrite (filter_all _ HV) in Hhi0, Hhi. split.
  - intros E. rewrite (Hhi0 E). reflexivity.
  - intros NE. destruct (Hhi NE) as [(r & Hr & _ & E) Hhigh].
    exists hi. split; [ reflexivity | ]. split; [ exists r; tauto | ].
    intros r' Hr'. apply Hhigh; [ exact Hr' | ].
    rewrite Forall_forall in HV. apply HV, Hr'.
Qed.

Lemma X2_highest_price_witness :
  exists hi,
    highest_price (frame (filter (included all_criteria) [with_score book1; with_score book2; with_score book3]))
    = Ok hi
    /\ (exists r, In r (filter (included all_criteria) [with_score book1; with_score book2; with_score book3])
                  /\ price r = hi)
    /\ forall r, In r (filter (included all_criteria) [with_score book1; with_score book2; with_score book3]) ->
         PrimFloat.leb (price r) hi = true.
Proof.
  apply (proj2 (X2_highest_price [with_score book1; with_score book2; with_score book3] all_criteria)).
  intros H. vm_compute in H. discriminate H.
Defined.

(** ** The filter under changes of the criteria *)

Lemma filter_Subseq_impl {A : Type} (f g : A -> bool) (l : list A) :
  (forall a, f a = true -> g a = true) -> Subseq (filter f l) (filter g l).
Proof.
  intros H. induction l as [| a l IH]; cbn; [ constructor | ].
  destruct (f a) eqn:Ef.
  - rewrite (H a Ef). apply Subseq_keep. exact IH.
  - destruct (g a); [ apply Subseq_skip | ]; exact IH.
Qed.

Lemma filter_twice {A : Type} (f g : A -> bool) (l : list A) :
  filter g (filter f l) = filter (fun a => f a && g a) l.
Proof.
  induction l as [| a l IH]; cbn; [ reflexivity | ].
  destruct (f a); cbn; [ destruct (g a) | ]; rewrite IH; reflexivity.
Qed.

(** X3 (lines 39-43): widening the criteria never loses a record.  When the
    price range of [c] lies within the one of [c'] and the categories and
    ratings allowed by [c] are allowed by [c'], the view under [c] is a
    subsequence of the view under [c']. *)
Theorem X3_filter_monotone (T : list BookRecord) (c c' : FilterCriteria) :
  PrimFloat.leb (price_min c') (price_min c) = true ->
  PrimFloat.leb (price_max c) (price_max c') = true ->
  incl (allowed_categories c) (allowed_categories c') ->
  incl (allowed_ratings c) (allowed_ratings c') ->
  exists V V',
    run_filter T c = Ok (frame V) /\ run_filter T c' = Ok (frame V')
    /\ Subseq V V'.
Proof.
  intros Hmin Hmax Hcat Hrat.
  exists (filter (included c) T), (filter (included c') T).
  rewrite !run_filter_frame. split; [ reflexivity | ]. split; [ reflexivity | ].
  apply filter_Subseq_impl. intros r. rewrite !included_spec.
  intros (Hlo & Hhi & Hc & Hr).
  split; [ eapply leb_trans; eassumption | ].
  split; [ eapply leb_trans; eassumption | ].
  split; [ apply Hcat, Hc | apply Hrat, Hr ].
Qed.

Lemma X3_filter_monotone_witness :
  exists V V',
    run_filter [with_score book1; with_score book2; with_score book3]
               (mkCriteria 10%float 50%float ["Low"]%string [5]%Z) = Ok (frame V)
    /\ run_filter [with_score book1; with_score book2; with_score book3]
                  all_criteria = Ok (frame V')
    /\ Subseq V V'.
Proof.
  apply (@X3_filter_monotone
           [with_score book1; with_score book2; with_score book3]
           (mkCriteria 10%float 50%float ["Low"]%string [5]%Z) all_criteria);
    try reflexivity; intros x; cbn; tauto.
Defined.

(** X4 (lines 39-43): filters compose by conjunction.  Filtering a view
    again keeps the records that pass both criteria, in either order of
    the two filters, and filtering a view with its own criteria returns
    the view. *)
Theorem X4_filter_compose (T : list BookRecord) (c1 c2 : FilterCriteria) :
  run_filter (filter (included c1) T) c2
  = Ok (frame (filter (fun r => included c1 r && included c2 r) T))
  /\ run_filter (filter (included c2) T) c1
     = run_filter (filter (included c1) T) c2
  /\ run_filter (filter (included c1) T) c1 = Ok (frame (filter (included c1) T)).
Proof.
  rewrite !run_filter_frame, !filter_twice. split; [ reflexivity | ]. split.
  - do 2 f_equal. apply filter_ext. intros r. apply andb_comm.
  - do 2 f_equal. apply filter_ext. intros r. apply andb_diag.
Qed.

(** ** The loader changes the score column and nothing else *)

Lemma getitem_setcell_other (row : Series) (label l : string) (v : value) :
  l <> label -> getitem (setcell row label v) l = getitem row l.
Proof.
  intros Hne. induction row as [| [l' w] row IH]; cbn.
  - destruct (String.eqb_spec label l); [ congruence | reflexivity ].
  - destruct (String.eqb_spec l' label) as [-> | Hl']; cbn.
    + destruct (String.eqb_spec label l); [ congruence | reflexivity ].
    + rewrite IH. reflexivity.
Qed.

Lemma get_rating_setcell (row : Series) (v : value) :
  get_rating (setcell row "rating_score" v) = get_rating row.
Proof.
  unfold get_rating. rewrite !getitem_setcell_other by discriminate. reflexivity.
Qed.

Lemma setcell_twice (row : Series) (label : string) (v w : value) :
  setcell (setcell row label v) label w = setcell row label w.
Proof.
  induction row as [| [l u] row IH]; cbn.
  - rewrite String.eqb_refl. reflexivity.
  - destruct (String.eqb l label) eqn:E; cbn; rewrite E; [ reflexivity | ].
    rewrite IH. reflexivity.
Qed.

Lemma setcells_length (rs : list Series) (label : string) (vals : list value) :
  length vals = length rs -> length (setcells rs label vals) = length rs.
Proof.
  revert vals. induction rs as [| r rs IH]; intros [| v vals]; cbn;
    try discriminate; try reflexivity.
  intros H. f_equal. apply IH. congruence.
Qed.

Lemma setcells_twice (rs : list Series) (label : string) (vals : list value) :
  setcells (setcells rs label vals) label vals = setcells rs label vals.
Proof.
  revert vals. induction rs as [| r rs IH]; intros [| v vals]; cbn;
    try reflexivity.
  rewrite setcell_twice, IH. reflexivity.
Qed.

Lemma mapM_get_rating_setcells (rs : list Series) (ss : list Z) :
  Forall2 (fun row s => get_rating row = Ok s) rs ss ->
  mapM get_rating (setcells rs "rating_score" (map VInt ss)) = Ok ss.
Proof.
  induction 1 as [| row s rs ss H _ IH]; cbn [map setcells mapM]; [ reflexivity | ].
  rewrite get_rating_setcell, H. cbn [bind]. rewrite IH. reflexivity.
Qed.

(** The shape of every frame [load_data] returns. *)
Lemma load_data_inv (read_csv : string -> result DataFrame) (df' : DataFrame) :
  load_data read_csv = Ok df' ->
  exists df ss,
    read_csv csv_path = Ok df
    /\ mapM get_rating (rows df) = Ok ss
    /\ df' = {| columns := if has_column df "rating_score" then columns df
                           else columns df ++ ["rating_score"%string];
                rows := setcells (rows df) "rating_score" (map VInt ss) |}.
Proof.
  unfold load_data, apply, setitem.
  destruct (read_csv csv_path) as [df | e]; cbn [bind]; [ | discriminate ].
  destruct (mapM get_rating (rows df)) as [ss | e] eqn:Hss; cbn [bind];
    [ | discriminate ].
  rewrite length_map, (mapM_length _ _ Hss), Nat.eqb_refl.
  intros H. injection H as <-. exists df, ss. auto.
Qed.

Lemma has_column_after_load (df : DataFrame) :
  existsb (String.eqb "rating_score")
          (if has_column df "rating_score" then columns df
           else columns df ++ ["rating_score"%string]) = true.
Proof.
  destruct (has_column df "rating_score") eqn:E; [ exact E | ].
  rewrite existsb_app. cbn. apply orb_true_r.
Qed.

(** X5 (lines 10-20): the loader touches nothing but the score.  The frame
    it returns has the columns of the source, with [rating_score] appended
    as the last one unless the source already had it, and in every row
    every cell under another label is the cell of the source. *)
Theorem X5_load_keeps_other_cells (read_csv : string -> result DataFrame)
    (df' : DataFrame) :
  load_data read_csv = Ok df' ->
  exists df,
    read_csv csv_path = Ok df
    /\ columns df' = (if has_column df "rating_score" then columns df
                      else columns df ++ ["rating_score"%string])
    /\ Forall2 (fun row row' =>
                  forall l, l <> "rating_score"%string ->
                            getitem row' l = getitem row l)
               (rows df) (rows df').
Proof.
  intros Hload.
  destruct (load_data_inv _ Hload) as (df & ss & Hread & Hss & ->).
  exists df. split; [ exact Hread | ]. split; [ reflexivity | ].
  cbn [rows]. apply mapM_Forall2 in Hss. clear Hload Hread.
  induction Hss as [| row s rs ss _ _ IH]; cbn [map setcells]; constructor.
  - intros l Hl. apply getitem_setcell_other. exact Hl.
  - exact IH.
Qed.

Lemma X5_load_keeps_other_cells_witness :
  exists df,
    Ok indicators_only = Ok df
    /\ columns {| columns := ["rating_four"; "rating_three"; "rating_two";
                             "rating_one"; "rating_score"]%string;
                  rows := [[("rating_four"%string, VBool false);
                            ("rating_three"%string, VBool true);
                            ("rating_two"%string, VBool false);
                            ("rating_one"%string, VBool false);
                            ("rating_score"%string, VInt 3)]] |}
       = (if has_column df "rating_score" then columns df
          else columns df ++ ["rating_score"%string])
    /\ Forall2 (fun row row' =>
                  forall l, l <> "rating_score"%string ->
                            getitem row' l = getitem row l)
               (rows df)
               [[("rating_four"%string, VBool false);
                 ("rating_three"%string, VBool true);
                 ("rating_two"%string, VBool false);
                 ("rating_one"%string, VBool false);
                 ("rating_score"%string, VInt 3)]].
Proof.
  exact (@X5_load_keeps_other_cells (fun _ => Ok indicators_only) _ eq_refl).
Defined.

(** X6 (lines 10-20): the loader is idempotent on its own output.  Loading
    a frame that [load_data] returned, one with a row or with the
    indicator columns, gives that frame back: the scores derived again
    from its indicator cells are the ones it carries, and the column is
    overwritten in place. *)
Theorem X6_load_idempotent (read_csv : string -> result DataFrame)
    (df' : DataFrame) :
  load_data read_csv = Ok df' ->
  applies_by_row df' = true ->
  load_data (fun _ => Ok df') = Ok df'.
Proof.
  intros Hload _.
  destruct (load_data_inv _ Hload) as (df & ss & _ & Hss & ->).
  pose proof (mapM_length _ _ Hss) as Hlen.
  unfold load_data, apply, setitem. cbn [bind rows columns].
  rewrite (mapM_get_rating_setcells (mapM_Forall2 _ _ Hss)). cbn [bind].
  rewrite setcells_length by (rewrite length_map; exact Hlen).
  rewrite length_map, Hlen, Nat.eqb_refl.
  unfold has_column at 1. cbn [columns].
  rewrite has_column_after_load, setcells_twice. reflexivity.
Qed.

Lemma X6_load_idempotent_witness :
  load_data (fun _ => Ok (frame [with_score book1; with_score book2]))
  = Ok (frame [with_score book1; with_score book2]).
Proof.
  exact (@X6_load_idempotent (fun _ => Ok (csv_frame [book1; book2]))
           (frame [with_score book1; with_score book2]) eq_refl eq_refl).
Defined.

(** ** The options of the two multiselects *)

Lemma insert_sorted_perm (v : value) (l r : list value) :
  insert_sorted v l = Ok r -> Permutation r (v :: l).
Proof.
  revert r. induction l as [| w l IH]; cbn; intros r H.
  - injection H as <-. reflexivity.
  - destruct (value_ltb w v) as [[|] | e]; cbn in H; try discriminate.
    + destruct (insert_sorted v l) as [r' | e]; cbn in H; [ | discriminate ].
      injection H as <-. rewrite (IH r' eq_refl). apply perm_swap.
    + injection H as <-. reflexivity.
Qed.

Lemma sorted_perm (l r : list value) : sorted l = Ok r -> Permutation r l.
Proof.
  revert r. induction l as [| v l IH]; cbn; intros r H.
  - injection H as <-. reflexivity.
  - destruct (sorted l) as [s | e]; cbn in H; [ | discriminate ].
    rewrite (insert_sorted_perm _ _ H), (IH s eq_refl). reflexivity.
Qed.

Section ExactCells.
(** [P] singles out the cells of one column kind (all text, or all int):
    among them [same_value] is equality and [<] is a strict total order. *)
Variable P : value -> Prop.
Hypothesis P_exact :
  forall v w, P v -> P w -> (same_value v w = true <-> v = w).
Hypothesis P_cmp : forall v w, P v -> P w -> exists b, value_ltb v w = Ok b.
Hypothesis P_trans :
  forall u v w, P u -> P v -> P w ->
    value_ltb u v = Ok true -> value_ltb v w = Ok true -> value_ltb u w = Ok true.
Hypothesis P_tri :
  forall v w, P v -> P w -> v <> w ->
    value_ltb v w = Ok false -> value_ltb w v = Ok true.

Lemma existsb_same_In (v : value) (l : list value) :
  P v -> Forall P l -> (existsb (same_value v) l = true <-> In v l).
Proof.
  intros Hv Hl. rewrite existsb_exists. rewrite Forall_forall in Hl. split.
  - intros (w & Hin & Hs). apply P_exact in Hs; auto. subst. exact Hin.
  - intros Hin. exists v. split; [ exact Hin | ]. apply P_exact; auto.
Qed.

Lemma unique_from_spec (col seen : list value) :
  Forall P col -> Forall P seen ->
  (forall v, In v (unique_from seen col) <-> In v col /\ ~ In v seen)
  /\ NoDup (unique_from seen col).
Proof.
  intros Hcol. revert seen.
  induction Hcol as [| x col Hx Hcol IH]; intros seen Hseen; cbn.
  - split; [ tauto | constructor ].
  - destruct (existsb (same_value x) seen) eqn:E.
    + apply existsb_same_In in E; auto.
      destruct (IH seen Hseen) as [Hin Hnd]. split; [ | exact Hnd ].
      intros v. rewrite Hin. split; [ tauto | ].
      intros [[<- | Hv] Hns]; tauto.
    + assert (Hxs : ~ In x seen).
      { intros Hin. apply existsb_same_In in Hin; auto. congruence. }
      destruct (IH (x :: seen) (Forall_cons _ Hx Hseen)) as [Hin Hnd]. split.
      * intros v. cbn. rewrite Hin. cbn. split.
        -- intros [<- | [Hv Hns]]; tauto.
        -- intros [[<- | Hv] Hns]; [ tauto | ].
           destruct (same_value x v) eqn:Exv.
           ++ apply P_exact in Exv; auto.
              rewrite Forall_forall in Hcol. auto.
           ++ right. split; [ exact Hv | ]. intros [-> | Hvs]; [ | tauto ].
              assert (same_value v v = true) by (apply P_exact; auto).
              congruence.
      * constructor; [ | exact Hnd ]. rewrite Hin. cbn. tauto.
Qed.

Lemma unique_spec (col : list value) :
  Forall P col ->
  (forall v, In v (unique col) <-> In v col) /\ NoDup (unique col).
Proof.
  intros Hcol. destruct (unique_from_spec Hcol (Forall_nil P)) as [Hin Hnd].
  split; [ | exact Hnd ]. intros v. rewrite (Hin v). cbn. tauto.
Qed.

Lemma insert_sorted_ascending (v : value) (l : list value) :
  P v -> Forall P l -> ~ In v l -> ascending l ->
  exists r, insert_sorted v l = Ok r /\ ascending r.
Proof.
  intros Hv Hl Hnin Hs. induction Hs as [| w l Hs IH Hall]; cbn.
  - eexists. split; [ reflexivity | ]. repeat constructor.
  - inversion Hl as [| ? ? Hw Hl']; subst.
    destruct (P_cmp Hw Hv) as [[|] Hwv]; rewrite Hwv; cbn [bind].
    + destruct IH as (r & Hr & Hsr); [ exact Hl' | cbn in Hnin; tauto | ].
      rewrite Hr. cbn [bind]. eexists. split; [ reflexivity | ].
      constructor; [ exact Hsr | ].
      eapply Permutation_Forall;
        [ symmetry; apply (insert_sorted_perm _ _ Hr) | ].
      constructor; assumption.
    + eexists. split; [ reflexivity | ].
      assert (Hvw : value_ltb v w = Ok true).
      { apply P_tri; auto. intros ->. apply Hnin. left. reflexivity. }
      constructor; [ constructor; assumption | ].
      constructor; [ exact Hvw | ].
      rewrite Forall_forall in Hall, Hl'. apply Forall_forall. intros u Hu.
      eapply (P_trans Hv Hw); eauto.
Qed.

Lemma sorted_ascending (l : list value) :
  Forall P l -> NoDup l -> exists r, sorted l = Ok r /\ ascending r.
Proof.
  intros Hl Hnd. induction Hnd as [| v l Hnin Hnd IH]; cbn.
  - eexists. split; [ reflexivity | ]. constructor.
  - inversion Hl as [| ? ? Hv Hl']; subst.
    destruct (IH Hl') as (s & Hs & Hasc). rewrite Hs. cbn [bind].
    pose proof (sorted_perm _ Hs) as Hperm.
    apply insert_sorted_ascending; auto.
    + eapply Permutation_Forall; [ symmetry; exact Hperm | exact Hl' ].
    + intros Hin. apply Hnin. eapply Permutation_in; eassumption.
Qed.

(** [sorted(col.unique())] on a column of such cells: every cell of the
    column once, in strictly ascending order. *)
Lemma sorted_unique_spec (col : list value) :
  Forall P col ->
  exists r, sorted (unique col) = Ok r /\ ascending r /\ NoDup r
            /\ forall v, In v r <-> In v col.
Proof.
  intros Hcol. destruct (unique_spec Hcol) as [Hin Hnd].
  assert (HP : Forall P (unique col)).
  { rewrite Forall_forall in *. intros v Hv. apply Hcol, Hin, Hv. }
  destruct (sorted_ascending HP Hnd) as (r & Hr & Hasc).
  pose proof (sorted_perm _ Hr) as Hperm.
  exists r. split; [ exact Hr | ]. split; [ exact Hasc | ].
  split; [ eapply Permutation_NoDup; [ symmetry; exact Hperm | exact Hnd ] | ].
  intros v. rewrite <- Hin. split; apply Permutation_in;
    [ exact Hperm | symmetry; exact Hperm ].
Qed.

End ExactCells.

Lemma string_lt_trans (s1 s2 s3 : string) :
  String.compare s1 s2 = Lt -> String.compare s2 s3 = Lt ->
  String.compare s1 s3 = Lt.
Proof.
  revert s2 s3. induction s1 as [| a s1 IH]; intros [| b s2] [| c s3]; cbn;
    try congruence.
  unfold Ascii.compare.
  destruct (N.compare_spec (Ascii.N_of_ascii a) (Ascii.N_of_ascii b)) as [E1 | L1 | G1];
    destruct (N.compare_spec (Ascii.N_of_ascii b) (Ascii.N_of_ascii c)) as [E2 | L2 | G2];
    destruct (N.compare_spec (Ascii.N_of_ascii a) (Ascii.N_of_ascii c)) as [E3 | L3 | G3];
    intros H1 H2; try congruence; try lia.
  eapply IH; eassumption.
Qed.

Lemma text_exact (v w : value) :
  is_text v -> is_text w -> (same_value v w = true <-> v = w).
Proof.
  destruct v as [| | | s], w as [| | | t]; cbn; try contradiction. intros _ _.
  unfold same_value. cbn. rewrite orb_false_r, String.eqb_eq. split; congruence.
Qed.

Lemma text_cmp (v w : value) :
  is_text v -> is_text w -> exists b, value_ltb v w = Ok b.
Proof.
  destruct v, w; cbn; try contradiction. intros _ _. eexists. reflexivity.
Qed.

Lemma text_trans (u v w : value) :
  is_text u -> is_text v -> is_text w ->
  value_ltb u v = Ok true -> value_ltb v w = Ok true -> value_ltb u w = Ok true.
Proof.
  destruct u as [| | | s1], v as [| | | s2], w as [| | | s3]; cbn;
    try contradiction. intros _ _ _. unfold String.ltb.
  destruct (String.compare s1 s2) eqn:E1; try discriminate.
  destruct (String.compare s2 s3) eqn:E2; try discriminate.
  rewrite (string_lt_trans _ _ _ E1 E2). reflexivity.
Qed.

Lemma text_tri (v w : value) :
  is_text v -> is_text w -> v <> w ->
  value_ltb v w = Ok false -> value_ltb w v = Ok true.
Proof.
  destruct v as [| | | s], w as [| | | t]; cbn; try contradiction.
  intros _ _ Hne. unfold String.ltb. rewrite (String.compare_antisym t s).
  destruct (String.compare s t) eqn:E; cbn; try discriminate; try reflexivity.
  apply String.compare_eq_iff in E. congruence.
Qed.

Lemma int_exact (v w : value) :
  is_int v -> is_int w -> (same_value v w = true <-> v = w).
Proof.
  destruct v as [| n | |], w as [| m | |]; cbn; try contradiction. intros _ _.
  unfold same_value. cbn. rewrite orb_false_r, Z.eqb_eq. split; congruence.
Qed.

Lemma int_cmp (v w : value) :
  is_int v -> is_int w -> exists b, value_ltb v w = Ok b.
Proof.
  destruct v, w; cbn; try contradiction. intros _ _. eexists. reflexivity.
Qed.

Lemma int_trans (u v w : value) :
  is_int u -> is_int v -> is_int w ->
  value_ltb u v = Ok true -> value_ltb v w = Ok true -> value_ltb u w = Ok true.
Proof.
  destruct u as [| n1 | |], v as [| n2 | |], w as [| n3 | |]; cbn;
    try contradiction. intros _ _ _ H1 H2.
  injection H1 as H1. injection H2 as H2. f_equal. lia.
Qed.

Lemma int_tri (v w : value) :
  is_int v -> is_int w -> v <> w ->
  value_ltb v w = Ok false -> value_ltb w v = Ok true.
Proof.
  destruct v as [| n1 | |], w as [| n2 | |]; cbn; try contradiction.
  intros _ _ Hne H. injection H as H. f_equal.
  assert (n1 <> n2) by congruence. lia.
Qed.

Lemma Forall_map_text {A : Type} (f : A -> string) (l : list A) :
  Forall is_text (map (fun a => VStr (f a)) l).
Proof. apply Forall_forall. intros v Hv. apply in_map_iff in Hv.
  destruct Hv as (a & <- & _). exact I. Qed.

Lemma Forall_map_int {A : Type} (f : A -> Z) (l : list A) :
  Forall is_int (map (fun a => VInt (f a)) l).
Proof. apply Forall_forall. intros v Hv. apply in_map_iff in Hv.
  destruct Hv as (a & <- & _). exact I. Qed.

(** The category options on the frame of a table. *)
Lemma categories_frame (T : list BookRecord) :
  exists cats,
    categories (frame T) = Ok cats /\ ascending cats /\ NoDup cats
    /\ forall v, In v cats <-> exists r, In r T /\ v = VStr (price_category r).
Proof.
  unfold categories. rewrite getcol_frame_category. cbn [bind].
  destruct (sorted_unique_spec text_exact text_cmp text_trans text_tri
              (Forall_map_text price_category T)) as (r & Hr & Ha & Hnd & Hin).
  exists r. repeat (split; [ assumption | ]).
  intros v. rewrite Hin, in_map_iff. split; intros (x & H1 & H2); exists x; auto.
Qed.

(** The rating options on the frame of a table. *)
Lemma ratings_frame (T : list BookRecord) :
  exists rs,
    ratings (frame T) = Ok rs /\ ascending rs /\ NoDup rs
    /\ forall v, In v rs <-> exists r, In r T /\ v = VInt (rating_score r).
Proof.
  unfold ratings. rewrite getcol_frame_score. cbn [bind].
  destruct (sorted_unique_spec int_exact int_cmp int_trans int_tri
              (Forall_map_int rating_score T)) as (r & Hr & Ha & Hnd & Hin).
  exists r. repeat (split; [ assumption | ]).
  intros v. rewrite Hin, in_map_iff. split; intros (x & H1 & H2); exists x; auto.
Qed.


(** X8 (lines 32-33): the category multiselect offers exactly the
    categories that occur in the table, each once, in strictly ascending
    string order; so never more options than the table has rows. *)
Theorem X8_category_options (T : list BookRecord) :
  exists cats,
    categories (frame T) = Ok cats
    /\ ascending cats
    /\ NoDup cats
    /\ (forall v, In v cats <-> exists r, In r T /\ v = VStr (price_category r))
    /\ length cats <= length T.
Proof.
  destruct (categories_frame T) as (cats & Hc & Ha & Hnd & Hin).
  exists cats. repeat (split; [ assumption | ]).
  rewrite <- (length_map (fun r => VStr (price_category r)) T).
  apply NoDup_incl_length; [ exact Hnd | ].
  intros v Hv. apply Hin in Hv. destruct Hv as (r & Hr & ->).
  apply (in_map (fun r0 => VStr (price_category r0))). exact Hr.
Qed.

Lemma precedence_score_range (r : BookRecord) :
  In (precedence_score r) [1; 2; 3; 4; 5]%Z.
Proof.
  unfold precedence_score.
  destruct (rating_four r), (rating_one r), (rating_three r), (rating_two r);
    cbn; tauto.
Qed.

(** X7 (lines 36-37): on a loaded table the rating multiselect offers
    exactly the scores the derivation gave some record, each once, in
    strictly ascending order, all among 1..5; so at most five options. *)
Theorem X7_rating_options (T : list BookRecord) :
  exists rs,
    ratings (frame (map with_score T)) = Ok rs
    /\ ascending rs
    /\ NoDup rs
    /\ (forall v, In v rs <->
                  exists r, In r T /\ v = VInt (precedence_score r))
    /\ incl rs (map VInt [1; 2; 3; 4; 5]%Z)
    /\ length rs <= 5.
Proof.
  destruct (ratings_frame (map with_score T)) as (rs & Hr & Ha & Hnd & Hin).
  assert (Hin' : forall v, In v rs <->
                           exists r, In r T /\ v = VInt (precedence_score r)).
  { intros v. rewrite Hin. split.
    - intros (r' & Hr' & ->). apply in_map_iff in Hr'.
      destruct Hr' as (r & <- & Hr0). exists r. auto.
    - intros (r & Hr0 & ->). exists (with_score r). split; [ | reflexivity ].
      apply in_map. exact Hr0. }
  assert (Hincl : incl rs (map VInt [1; 2; 3; 4; 5]%Z)).
  { intros v Hv. apply Hin' in Hv. destruct Hv as (r & _ & ->).
    apply in_map. apply precedence_score_range. }
  exists rs. repeat (split; [ assumption | ]).
  apply (NoDup_incl_length Hnd Hincl).
Qed.


(** ** The count tables *)

Lemma insert_count_perm (kc : value * nat) (l : list (value * nat)) :
  Permutation (insert_count kc l) (kc :: l).
Proof.
  induction l as [| kc' l IH]; cbn; [ reflexivity | ].
  destruct (Nat.leb (snd kc') (snd kc)); [ reflexivity | ].
  rewrite IH. apply perm_swap.
Qed.

Lemma sort_counts_perm (l : list (value * nat)) :
  Permutation (fold_right insert_count [] l) l.
Proof.
  induction l as [| kc l IH]; cbn; [ reflexivity | ].
  rewrite insert_count_perm, IH. reflexivity.
Qed.

Lemma insert_count_sorted (kc : value * nat) (l : list (value * nat)) :
  StronglySorted (fun a b => snd b <= snd a) l ->
  StronglySorted (fun a b => snd b <= snd a) (insert_count kc l).
Proof.
  intros Hs. induction Hs as [| kc' l Hs IH Hall]; cbn.
  - repeat constructor.
  - destruct (Nat.leb (snd kc') (snd kc)) eqn:E.
    + apply Nat.leb_le in E. constructor; [ constructor; assumption | ].
      constructor; [ exact E | ].
      eapply Forall_impl; [ | exact Hall ]. cbn. intros a Ha.
      eapply Nat.le_trans; eassumption.
    + apply Nat.leb_gt in E. constructor; [ exact IH | ].
      eapply Permutation_Forall; [ symmetry; apply insert_count_perm | ].
      constructor; [ apply Nat.lt_le_incl; exact E | exact Hall ].
Qed.

Lemma sort_counts_sorted (l : list (value * nat)) :
  StronglySorted (fun a b => snd b <= snd a) (fold_right insert_count [] l).
Proof.
  induction l as [| kc l IH]; cbn; [ constructor | ].
  apply insert_count_sorted. exact IH.
Qed.

Lemma list_sum_perm (l l' : list nat) :
  Permutation l l' -> list_sum l = list_sum l'.
Proof. induction 1; unfold list_sum in *; cbn; lia. Qed.

Lemma list_sum_cons (a : nat) (l : list nat) :
  list_sum (a :: l) = a + list_sum l.
Proof. reflexivity. Qed.

Section ExactCounts.
Variable P : value -> Prop.
Hypothesis P_exact :
  forall v w, P v -> P w -> (same_value v w = true <-> v = w).
Hypothesis P_not_nan : forall v, P v -> is_nan_value v = false.

Lemma count_of_cons (u x : value) (col : list value) :
  count_of u (x :: col) = (if same_value u x then 1 else 0) + count_of u col.
Proof. unfold count_of. cbn. destruct (same_value u x); reflexivity. Qed.

Lemma count_of_pos (u : value) (col : list value) :
  P u -> In u col -> 1 <= count_of u col.
Proof.
  intros Hu Hin. induction col as [| x col IH]; [ contradiction | ].
  rewrite count_of_cons. destruct Hin as [-> | Hin].
  - assert (same_value u u = true) as -> by (apply P_exact; auto). lia.
  - specialize (IH Hin). lia.
Qed.

Lemma sum_indicator (x : value) (U : list value) :
  P x -> Forall P U -> NoDup U ->
  list_sum (map (fun u => if same_value u x then 1 else 0) U)
  = if existsb (same_value x) U then 1 else 0.
Proof.
  intros Hx HU Hnd. induction Hnd as [| u U Hnin Hnd IH]; [ reflexivity | ].
  cbn [map existsb]. rewrite list_sum_cons.
  inversion HU as [| ? ? Hu HU']; subst. rewrite (IH HU').
  destruct (same_value u x) eqn:E.
  - apply P_exact in E; auto. subst u.
    assert (same_value x x = true) as -> by (apply P_exact; auto). cbn [orb].
    destruct (existsb (same_value x) U) eqn:E'; [ | reflexivity ].
    apply (@existsb_same_In P P_exact x U Hx HU') in E'. contradiction.
  - destruct (same_value x u) eqn:E2; [ | reflexivity ].
    apply P_exact in E2; auto. subst u.
    assert (same_value x x = true) by (apply P_exact; auto). congruence.
Qed.

Lemma sum_counts (U col : list value) :
  Forall P U -> NoDup U -> Forall P col -> incl col U ->
  list_sum (map (fun u => count_of u col) U) = length col.
Proof.
  intros HU Hnd Hcol. induction Hcol as [| x col Hx Hcol IH]; intros Hincl.
  - clear. induction U as [| u U IHU]; [ reflexivity | ].
    cbn [map length]. rewrite list_sum_cons, IHU. reflexivity.
  - assert (Hsplit :
      list_sum (map (fun u => count_of u (x :: col)) U)
      = list_sum (map (fun u => if same_value u x then 1 else 0) U)
        + list_sum (map (fun u => count_of u col) U)).
    { clear. induction U as [| u U IHU]; [ reflexivity | ].
      cbn [map]. rewrite !list_sum_cons, IHU, count_of_cons. lia. }
    rewrite Hsplit, IH, (sum_indicator Hx HU Hnd).
    + assert (existsb (same_value x) U = true) as ->.
      { apply (@existsb_same_In P P_exact x U Hx HU). apply Hincl.
        left. reflexivity. }
      reflexivity.
    + intros v Hv. apply Hincl. right. exact Hv.
Qed.

(** [value_counts] on a column of such cells: one entry per distinct cell,
    each with its number of occurrences, the counts adding up to the
    length of the column and never increasing down the table. *)
Lemma value_counts_spec (col : list value) :
  Forall P col ->
  NoDup (map fst (value_counts col))
  /\ (forall k n, In (k, n) (value_counts col) <->
                  In k col /\ n = count_of k col)
  /\ list_sum (map snd (value_counts col)) = length col
  /\ StronglySorted (fun a b => snd b <= snd a) (value_counts col).
Proof.
  intros Hcol. unfold value_counts.
  assert (Hpresent : filter (fun v => negb (is_nan_value v)) col = col).
  { apply filter_all. eapply Forall_impl; [ | exact Hcol ].
    intros v Hv. cbn. rewrite (P_not_nan Hv). reflexivity. }
  rewrite Hpresent.
  destruct (unique_spec P_exact Hcol) as [Hin Hnd].
  set (entries := map (fun v => (v, count_of v col)) (unique col)).
  pose proof (sort_counts_perm entries) as Hperm.
  assert (HPU : Forall P (unique col)).
  { rewrite Forall_forall in *. intros v Hv. apply Hcol, Hin, Hv. }
  split; [ | split; [ | split ] ].
  - eapply Permutation_NoDup;
      [ symmetry; apply Permutation_map; exact Hperm | ].
    unfold entries. rewrite map_map. cbn. rewrite map_id. exact Hnd.
  - intros k n. split.
    + intros H. apply (Permutation_in _ Hperm) in H. unfold entries in H.
      apply in_map_iff in H. destruct H as (v & E & Hv). injection E as <- <-.
      split; [ apply Hin, Hv | reflexivity ].
    + intros [Hk ->]. apply (Permutation_in _ (Permutation_sym Hperm)).
      unfold entries. apply in_map_iff. exists k. split; [ reflexivity | ].
      apply Hin, Hk.
  - rewrite (list_sum_perm (Permutation_map snd Hperm)).
    unfold entries. rewrite map_map. cbn.
    apply sum_counts; auto. intros v Hv. apply Hin, Hv.
  - apply sort_counts_sorted.
Qed.

End ExactCounts.

Lemma text_not_nan (v : value) : is_text v -> is_nan_value v = false.
Proof. destruct v; cbn; try contradiction; reflexivity. Qed.

Lemma int_not_nan (v : value) : is_int v -> is_nan_value v = false.
Proof. destruct v; cbn; try contradiction; reflexivity. Qed.

Lemma count_of_map {A : Type} (g : A -> value) (v : value) (l : list A) :
  count_of v (map g l) = length (filter (fun a => same_value v (g a)) l).
Proof. unfold count_of. rewrite filter_map_swap, length_map. reflexivity. Qed.

Lemma view_filter_frame (T : list BookRecord) (c : FilterCriteria) :
  run_filter T c = Ok (frame (view T c)).
Proof. apply run_filter_frame. Qed.

(** X9 (lines 73-74): the category count table of a filtered view.  It has
    one row per category that occurs in the view, none twice, each with
    the number of records of that category; every category shown is a
    selected one with a count of at least 1; the counts add up to the
    Total Inventory KPI and never increase down the table. *)
Theorem X9_category_counts (T : list BookRecord) (c : FilterCriteria) :
  exists vc,
    cat_counts (frame (view T c)) = Ok (counts_frame "Category" "Count" vc)
    /\ NoDup (map fst vc)
    /\ (forall k n,
          In (k, n) vc <->
          exists s, k = VStr s
                    /\ (exists r, In r (view T c) /\ price_category r = s)
                    /\ n = length (filter (fun r => String.eqb s (price_category r))
                                          (view T c)))
    /\ (forall k n, In (k, n) vc ->
                    exists s, k = VStr s /\ In s (allowed_categories c) /\ 1 <= n)
    /\ list_sum (map snd vc) = total_inventory (frame (view T c))
    /\ StronglySorted (fun a b => snd b <= snd a) vc.
Proof.
  set (V := view T c).
  set (col := map (fun r => VStr (price_category r)) V).
  pose proof (Forall_map_text price_category V) as Hcol. fold col in Hcol.
  destruct (value_counts_spec text_exact text_not_nan Hcol)
    as (Hnd & Hin & Hsum & Hsorted).
  assert (Hcount : forall s, count_of (VStr s) col
                     = length (filter (fun r => String.eqb s (price_category r)) V)).
  { intros s. unfold col. rewrite count_of_map. f_equal.
    apply filter_ext. intros r. unfold same_value. cbn. apply orb_false_r. }
  assert (Hkeys : forall k n, In (k, n) (value_counts col) <->
            exists s, k = VStr s
                      /\ (exists r, In r V /\ price_category r = s)
                      /\ n = length (filter (fun r => String.eqb s (price_category r)) V)).
  { intros k n. rewrite Hin. unfold col at 1. rewrite in_map_iff. split.
    - intros [(r & <- & Hr) ->]. exists (price_category r).
      split; [ reflexivity | ]. split; [ eauto | apply Hcount ].
    - intros (s & -> & (r & Hr & <-) & ->).
      split; [ eauto | symmetry; apply Hcount ]. }
  exists (value_counts col).
  split; [ unfold cat_counts; rewrite getcol_frame_category; reflexivity | ].
  split; [ exact Hnd | ]. split; [ exact Hkeys | ]. split; [ | split ].
  - intros k n Hkn. pose proof Hkn as Hkn'. apply Hkeys in Hkn.
    destruct Hkn as (s & -> & (r & Hr & <-) & _).
    exists (price_category r). split; [ reflexivity | ]. split.
    + apply filter_In in Hr. destruct Hr as [_ Hr].
      apply included_spec in Hr. tauto.
    + apply Hin in Hkn'. destruct Hkn' as [Hk ->].
      exact (@count_of_pos is_text text_exact (VStr (price_category r)) col I Hk).
  - rewrite Hsum. unfold col, total_inventory, len, frame. cbn [rows].
    rewrite !length_map. reflexivity.
  - exact Hsorted.
Qed.

(** X10 (lines 105-106): the rating count table of a filtered view of a
    loaded table.  It has at most five rows; every rating shown is one of
    1..5 and a selected one, with the number of records of the view that
    have it, at least 1; the counts add up to the size of the view. *)
Theorem X10_rating_counts (T : list BookRecord) (c : FilterCriteria) :
  exists vc,
    rating_counts (frame (view (map with_score T) c))
    = Ok (counts_frame "Rating" "Count" vc)
    /\ length vc <= 5
    /\ (forall k n,
          In (k, n) vc ->
          exists s, k = VInt s /\ (1 <= s <= 5)%Z
                    /\ In s (allowed_ratings c)
                    /\ n = length (filter (fun r => Z.eqb s (rating_score r))
                                          (view (map with_score T) c))
                    /\ 1 <= n)
    /\ list_sum (map snd vc) = length (view (map with_score T) c).
Proof.
  set (V := view (map with_score T) c).
  set (col := map (fun r => VInt (rating_score r)) V).
  pose proof (Forall_map_int rating_score V) as Hcol. fold col in Hcol.
  destruct (value_counts_spec int_exact int_not_nan Hcol)
    as (Hnd & Hin & Hsum & _).
  assert (Hscore : forall r, In r V ->
            In (rating_score r) [1; 2; 3; 4; 5]%Z
            /\ In (rating_score r) (allowed_ratings c)).
  { intros r Hr. apply filter_In in Hr. destruct Hr as [Hr Hinc].
    apply included_spec in Hinc. split; [ | tauto ].
    apply in_map_iff in Hr. destruct Hr as (r0 & <- & _).
    apply precedence_score_range. }
  assert (Hkeys : forall k n, In (k, n) (value_counts col) ->
            exists r, In r V /\ k = VInt (rating_score r)
                      /\ n = count_of k col).
  { intros k n Hkn. apply Hin in Hkn. destruct Hkn as [Hk ->].
    unfold col in Hk. apply in_map_iff in Hk. destruct Hk as (r & <- & Hr).
    exists r. auto. }
  exists (value_counts col).
  split; [ unfold rating_counts; rewrite getcol_frame_score; reflexivity | ].
  split; [ | split ].
  - rewrite <- (length_map fst).
    apply (@NoDup_incl_length _ _ (map VInt [1; 2; 3; 4; 5]%Z) Hnd).
    intros k Hk. apply in_map_iff in Hk. destruct Hk as ([k' n] & <- & Hkn).
    destruct (Hkeys _ _ Hkn) as (r & Hr & -> & _). cbn [fst].
    apply in_map. apply Hscore, Hr.
  - intros k n Hkn. destruct (Hkeys _ _ Hkn) as (r & Hr & -> & ->).
    exists (rating_score r). split; [ reflexivity | ].
    destruct (Hscore r Hr) as [Hrange Hsel].
    split; [ cbn in Hrange; lia | ]. split; [ exact Hsel | ]. split.
    + unfold col. rewrite count_of_map. f_equal.
      apply filter_ext. intros r'. unfold same_value. cbn. apply orb_false_r.
    + apply (@count_of_pos is_int int_exact (VInt (rating_score r)) col I).
      unfold col. apply (in_map (fun r0 => VInt (rating_score r0))). exact Hr.
  - rewrite Hsum. unfold col. apply length_map.
Qed.

(** ** The order of the leaderboard *)

Lemma StronglySorted_firstn {A : Type} (R : A -> A -> Prop) (n : nat) (l : list A) :
  StronglySorted R l -> StronglySorted R (firstn n l).
Proof.
  intros Hs. revert n. induction Hs as [| a l Hs IH Hall]; intros [| n]; cbn;
    try constructor.
  - apply IH.
  - rewrite Forall_forall in *. intros x Hx. apply Hall.
    rewrite <- (firstn_skipn n l). apply in_or_app. left. exact Hx.
Qed.

(** X11 (line 131): the leaderboard is listed from the most expensive
    down.  On every filtered view of a table with at least one row the
    rows of [top_10] are in non-increasing price order, the first row has a
    price no record of the view exceeds, and the board is empty only when
    the view is. *)
Theorem X11_leaderboard_order (T : list BookRecord) (c : FilterCriteria) :
  T <> [] ->
  exists sel,
    top_10 (frame T) (frame (view T c)) = Ok (board_frame sel)
    /\ StronglySorted price_ge sel
    /\ (forall s r, hd_error sel = Some s -> In r (view T c) ->
                    PrimFloat.leb (price r) (price s) = true)
    /\ (sel = [] -> view T c = []).
Proof.
  intros HT.
  pose proof (view_has_price T c) as HV. fold (view T c) in HV.
  set (V := view T c) in *.
  pose proof (sort_books_sorted HV) as Hs.
  pose proof (sort_books_perm V) as Hperm.
  exists (firstn 10 (sort_books V)).
  split; [ rewrite (top_10_frame V HT), (ranked_priced HV); reflexivity | ].
  split; [ apply StronglySorted_firstn; exact Hs | ]. split.
  - intros s r Hhd Hr.
    apply (Permutation_in _ (Permutation_sym Hperm)) in Hr.
    destruct (sort_books V) as [| s0 rest]; [ contradiction | ].
    cbn in Hhd. injection Hhd as <-.
    inversion Hs as [| ? ? _ Hall]; subst.
    destruct Hr as [<- | Hr].
    + apply leb_refl. rewrite Forall_forall in HV.
      assert (Hp : has_price s0 = true).
      { apply HV. apply (Permutation_in _ Hperm). left. reflexivity. }
      apply negb_true_iff. exact Hp.
    + rewrite Forall_forall in Hall. apply (Hall r Hr).
  - intros E. apply Permutation_nil. rewrite <- Hperm.
    destruct (sort_books V) as [| s0 rest]; [ reflexivity | discriminate ].
Qed.

Lemma X11_leaderboard_order_witness :
  exists sel,
    top_10 (frame [with_score book1; with_score book2; with_score book3])
           (frame (view [with_score book1; with_score book2; with_score book3]
                        all_criteria))
    = Ok (board_frame sel)
    /\ StronglySorted price_ge sel
    /\ (forall s r, hd_error sel = Some s ->
                    In r (view [with_score book1; with_score book2;
                                with_score book3] all_criteria) ->
                    PrimFloat.leb (price r) (price s) = true)
    /\ (sel = [] ->
        view [with_score book1; with_score book2; with_score book3]
             all_criteria = []).
Proof.
  apply (@X11_leaderboard_order
           [with_score book1; with_score book2; with_score book3] all_criteria).
  discriminate.
Defined.

Lemma insert_book_stable (p : float) (r : BookRecord) (l : list BookRecord) :
  filter (priced_at p) (insert_book r l) = filter (priced_at p) (r :: l).
Proof.
  induction l as [| r' l IH]; [ reflexivity | ].
  cbn [insert_book].
  destruct (PrimFloat.leb (price r') (price r)) eqn:E; [ reflexivity | ].
  cbn [filter] in *. rewrite IH.
  destruct (priced_at p r') eqn:E'; [ | reflexivity ].
  destruct (priced_at p r) eqn:Er; [ | reflexivity ].
  unfold priced_at in E', Er. apply andb_true_iff in E', Er.
  destruct E' as [_ H1]. destruct Er as [H2 _].
  rewrite (leb_trans H1 H2) in E. discriminate.
Qed.

Lemma sort_books_stable (p : float) (l : list BookRecord) :
  filter (priced_at p) (sort_books l) = filter (priced_at p) l.
Proof.
  unfold sort_books. induction l as [| r l IH]; [ reflexivity | ].
  cbn [fold_right]. rewrite insert_book_stable. cbn [filter].
  rewrite IH. reflexivity.
Qed.

(** X13 (line 131): ties at the cut of the leaderboard go to the earlier
    rows.  On every filtered view of a table with at least one row and for
    every price, the records of that price the board shows are the first
    ones of that price in the view: some number [k] of them, counted from
    the top of the view. *)
Theorem X13_leaderboard_ties (T : list BookRecord) (c : FilterCriteria)
    (p : float) :
  T <> [] ->
  exists sel k,
    top_10 (frame T) (frame (view T c)) = Ok (board_frame sel)
    /\ Permutation (filter (priced_at p) sel)
                   (firstn k (filter (priced_at p) (view T c))).
Proof.
  intros HT.
  pose proof (view_has_price T c) as HV. fold (view T c) in HV.
  set (S := sort_books (view T c)).
  exists (firstn 10 S), (length (filter (priced_at p) (firstn 10 S))).
  split; [ rewrite (top_10_frame _ HT), (ranked_priced HV); reflexivity | ].
  rewrite <- (sort_books_stable p (view T c)). fold S.
  rewrite <- (firstn_skipn 10 S) at 3.
  rewrite filter_app, firstn_app, Nat.sub_diag, firstn_all, firstn_O, app_nil_r.
  reflexivity.
Qed.

Lemma X13_leaderboard_ties_witness :
  exists sel k,
    top_10 (frame [with_score book1; with_score book2; with_score book1])
           (frame (view [with_score book1; with_score book2; with_score book1]
                        all_criteria))
    = Ok (board_frame sel)
    /\ Permutation (filter (priced_at 10%float) sel)
                   (firstn k (filter (priced_at 10%float)
                                     (view [with_score book1; with_score book2;
                                            with_score book1] all_criteria))).
Proof.
  apply (@X13_leaderboard_ties
           [with_score book1; with_score book2; with_score book1] all_criteria
           10%float).
  discriminate.
Defined.


(** ** The filter on an arbitrary frame *)



